(** * Acquisition-OS: the calculation core, embedded and checked

    The development covers the spreadsheet-style arithmetic of the
    application: the numeric parsers, the SDE/EBITDA normalisation of the
    financial analysis hub, the debt-service calculator, the year-1
    projection loop and the two copies of the buy-box fit scorer.

    Number model.  A JavaScript number is taken as an exact rational
    ([Q], compared with [==]); [NaN] is the [None] of an [option Q].
    Rounding of binary floating point, overflow and the two infinities are
    outside this model.  Strings are [string]s of 8-bit characters, so
    whitespace and letter case are the ASCII ones. *)

From Stdlib Require Import ZArith QArith Qround Qpower Qfield Lqa.
From Stdlib Require Import List String Ascii Bool Lia Permutation DecimalString.
From Stdlib Require Import DecimalPos Sorted.
Import ListNotations.

Open Scope string_scope.
Open Scope Q_scope.

(* ================================================================== *)
(** ** The builtins the sources call *)

Module Js.

Definition is_digit (c : ascii) : bool :=
  let n := nat_of_ascii c in (48 <=? n)%nat && (n <=? 57)%nat.

(** StrWhiteSpaceChar, restricted to one-byte characters: TAB, LF, VT, FF,
    CR and SPACE. *)
Definition is_space (c : ascii) : bool :=
  let n := nat_of_ascii c in
  ((9 <=? n)%nat && (n <=? 13)%nat) || (n =? 32)%nat.

(** Value of [c] as a digit of a radix up to 36. *)
Definition digit_of (c : ascii) : option Z :=
  let n := Z.of_nat (nat_of_ascii c) in
  if ((48 <=? n) && (n <=? 57))%Z then Some (n - 48)%Z
  else if ((97 <=? n) && (n <=? 122))%Z then Some (n - 87)%Z
  else if ((65 <=? n) && (n <=? 90))%Z then Some (n - 55)%Z
  else None.

Fixpoint trimStart (s : string) : string :=
  match s with
  | String c r => if is_space c then trimStart r else s
  | EmptyString => s
  end.

(** [trimEnd] keeps a character when it, or something after it, is not
    whitespace. *)
Fixpoint trimEnd (s : string) : string :=
  match s with
  | String c r =>
      match trimEnd r with
      | EmptyString => if is_space c then EmptyString else String c EmptyString
      | r' => String c r'
      end
  | EmptyString => EmptyString
  end.

Definition trim (s : string) : string := trimEnd (trimStart s).

(** Longest run of digits of [radix] at the head of [s]: the value read so
    far, how many digits were read, and what follows them. *)
Fixpoint read_digits (radix : Z) (s : string) (acc : Z) (count : nat)
  : Z * nat * string :=
  match s with
  | String c r =>
      match digit_of c with
      | Some d =>
          if (d <? radix)%Z
          then read_digits radix r (acc * radix + d)%Z (S count)
          else (acc, count, s)
      | None => (acc, count, s)
      end
  | EmptyString => (acc, count, s)
  end.

Definition read_sign (s : string) : bool * string :=
  match s with
  | String c r =>
      if Ascii.eqb c "-" then (true, r)
      else if Ascii.eqb c "+" then (false, r)
      else (false, s)
  | EmptyString => (false, s)
  end.

Definition signed (neg : bool) (q : Q) : Q := if neg then - q else q.

(** ExponentPart: [e] or [E], an optional sign and at least one digit.
    When no digit follows, the [e] is not part of the literal. *)
Definition read_exponent (s : string) : Z * string :=
  match s with
  | String c r =>
      if (Ascii.eqb c "e" || Ascii.eqb c "E")%bool then
        let (neg, r1) := read_sign r in
        let '(v, k, r2) := read_digits 10 r1 0%Z 0%nat in
        match k with
        | O => (0%Z, s)
        | _ => ((if neg then - v else v)%Z, r2)
        end
      else (0%Z, s)
  | EmptyString => (0%Z, s)
  end.

(** The mantissa scaled by the exponent part that follows it, if any. *)
Definition with_exponent (mantissa : Q) (s : string) : Q * string :=
  let (e, r) := read_exponent s in (mantissa * 10 ^ e, r).

Definition after_dot (s : string) : option string :=
  match s with
  | String c r => if Ascii.eqb c "." then Some r else None
  | EmptyString => None
  end.

(** Longest prefix of [s] that is a StrUnsignedDecimalLiteral
    ([12], [12.], [12.5], [.5], each with an optional exponent), with its
    value and the rest of [s].  The literal [Infinity], which the grammar
    also has, denotes no rational and is read here as no literal. *)
Definition read_decimal (s : string) : option (Q * string) :=
  let '(ip, ni, r1) := read_digits 10 s 0%Z 0%nat in
  match after_dot r1 with
  | Some r2 =>
      let '(fp, nf, r3) := read_digits 10 r2 0%Z 0%nat in
      match ni, nf with
      | O, O => None
      | _, _ =>
          Some (with_exponent
                  (inject_Z ip + inject_Z fp / inject_Z (10 ^ Z.of_nat nf)) r3)
      end
  | None =>
      match ni with
      | O => None
      | _ => Some (with_exponent (inject_Z ip) r1)
      end
  end.

(** [parseFloat]: leading whitespace is skipped, the longest numeric prefix
    is read and whatever follows it is ignored; [None] is NaN. *)
Definition parseFloat (s : string) : option Q :=
  let (neg, r) := read_sign (trimStart s) in
  match read_decimal r with
  | Some (q, _) => Some (signed neg q)
  | None => None
  end.

(** [Number] applied to a string: whitespace is trimmed at both ends, the
    empty string is 0 and otherwise the whole string has to be one decimal
    literal.  The radix prefixes [0x], [0o] and [0b] are not modelled; its
    only caller removes every letter first. *)
Definition Number (s : string) : option Q :=
  match trim s with
  | EmptyString => Some 0
  | t =>
      let (neg, r) := read_sign t in
      match read_decimal r with
      | Some (q, EmptyString) => Some (signed neg q)
      | _ => None
      end
  end.

Definition has_hex_prefix (s : string) : option string :=
  match s with
  | String "0" (String c r) =>
      if (Ascii.eqb c "x" || Ascii.eqb c "X")%bool then Some r else None
  | _ => None
  end.

(** [parseInt(s, radix)]; [radix = 0] stands for a call without radix.
    [None] is NaN. *)
Definition parseInt (s : string) (radix : Z) : option Z :=
  let (neg, r) := read_sign (trimStart s) in
  let '(R, r') :=
    match has_hex_prefix r with
    | Some h => if ((radix =? 0) || (radix =? 16))%Z then (16%Z, h)
                else (radix, r)
    | None => ((if (radix =? 0)%Z then 10 else radix)%Z, r)
    end in
  if ((R <? 2) || (36 <? R))%Z then None
  else
    let '(v, k, _) := read_digits R r' 0%Z 0%nat in
    match k with
    | O => None
    | _ => Some (if neg then - v else v)%Z
    end.

(** [x || d] on a number: NaN and 0 are the falsy numbers. *)
Definition or_else (x : option Q) (d : Q) : Q :=
  match x with
  | Some q => if Qeq_bool q 0 then d else q
  | None => d
  end.

Definition or_elseZ (x : option Z) (d : Z) : Z :=
  match x with
  | Some z => if (z =? 0)%Z then d else z
  | None => d
  end.

(** A number used as a condition. *)
Definition truthy (q : Q) : bool := negb (Qeq_bool q 0).

(** [a > b] and [a < b] on numbers. *)
Definition gt (a b : Q) : bool := negb (Qle_bool a b).
Definition lt (a b : Q) : bool := negb (Qle_bool b a).

(** [Math.round]: the nearest integer, halves going up. *)
Definition round (q : Q) : Z := Qfloor (q + (1 # 2)).

(** [s.replace(/[^...]/g, '')]: the characters of [s] that [keep] accepts. *)
Fixpoint filter (keep : ascii -> bool) (s : string) : string :=
  match s with
  | String c r => if keep c then String c (filter keep r) else filter keep r
  | EmptyString => EmptyString
  end.

(** [s.split(sep)] for a one-character separator; never the empty list. *)
Fixpoint split (sep : ascii) (s : string) : list string :=
  match s with
  | String c r =>
      if Ascii.eqb c sep then EmptyString :: split sep r
      else match split sep r with
           | h :: t => String c h :: t
           | [] => [String c EmptyString]
           end
  | EmptyString => [EmptyString]
  end.

(** [s.split(sep)[0]]: [s] up to the first occurrence of [sep]. *)
Fixpoint before (sep : string) (s : string) : string :=
  if String.prefix sep s then EmptyString
  else match s with
       | String c r => String c (before sep r)
       | EmptyString => EmptyString
       end.

Definition lower (c : ascii) : ascii :=
  let n := nat_of_ascii c in
  if ((65 <=? n) && (n <=? 90))%nat then ascii_of_nat (n + 32) else c.

Fixpoint toLowerCase (s : string) : string :=
  match s with
  | String c r => String (lower c) (toLowerCase r)
  | EmptyString => EmptyString
  end.

(** [s.replace(/\*\*/g, '')]. *)
Fixpoint remove_bold (s : string) : string :=
  match s with
  | String "*" (String "*" r) => remove_bold r
  | String c r => String c (remove_bold r)
  | EmptyString => EmptyString
  end.

Fixpoint contains (c : ascii) (s : string) : bool :=
  match s with
  | String d r => Ascii.eqb d c || contains c r
  | EmptyString => false
  end.

(** Does a match of [<[^>]+>] start at a [<] that is followed by [s]?
    It does when [s] starts with a character other than [>] and has a
    [>] further on. *)
Definition opens_tag (s : string) : bool :=
  match s with
  | String d r => negb (Ascii.eqb d ">") && contains ">" r
  | EmptyString => false
  end.

(** [s.replace(/<[^>]+>/g, '')], as one pass: [inside] is set while the
    characters of a matched tag are being dropped, up to its first [>]. *)
Fixpoint strip_tags_from (inside : bool) (s : string) : string :=
  match s with
  | String c r =>
      if inside then strip_tags_from (negb (Ascii.eqb c ">")) r
      else if Ascii.eqb c "<" && opens_tag r then strip_tags_from true r
      else String c (strip_tags_from false r)
  | EmptyString => EmptyString
  end.

Definition strip_tags (s : string) : string := strip_tags_from false s.

End Js.

(* ================================================================== *)
(** ** components/FinancialAnalysisHub.tsx *)

Module FinancialAnalysisHub.

Record FinancialPeriod := {
  id : string;
  periodName : string;
  (* Income Statement *)
  revenue : string;
  cogs : string;
  operatingExpenses : string;
  depreciation : string;
  amortization : string;
  interestExpense : string;
  taxes : string;
  (* Balance Sheet *)
  cash : string;
  accountsReceivable : string;
  inventory : string;
  otherCurrentAssets : string;
  longTermAssets : string;
  accountsPayable : string;
  shortTermDebt : string;
  otherCurrentLiabilities : string;
  longTermDebt : string;
  shareholderEquity : string
}.

Inductive Category :=
| OwnerDiscretionaryExpenses | NonRecurringExpenses | NonOperationalExpenses
| AddBacksForStandardization | Personal | OneTime | Other.

Record AddBack := {
  addBackId : string;
  description : string;
  amount : string;
  category : Category
}.

Record FinancialAnalysisData := {
  companyName : string;
  periods : list FinancialPeriod;
  addBacks : list AddBack;
  ytdMonths : string;
  ytdActuals : FinancialPeriod;
  ownerCompAddBack : string;
  financialNotes : string;
  addBackNotes : string
}.

Definition is_comma (c : ascii) : bool := Ascii.eqb c ",".

(** [parseFloat(String(val).replace(/,/g, '')) || 0] *)
Definition parseNum (val : string) : Q :=
  Js.or_else (Js.parseFloat (Js.filter (fun c => negb (is_comma c)) val)) 0.

(** What [calculateMetrics] returns. *)
Record Metrics := {
  m_id : string;
  m_periodName : string;
  m_revenue : Q;
  grossProfit : Q;
  ebitda : Q;
  netIncome : Q;
  normalizedEbitda : Q;
  normalizedSde : Q;
  netWorkingCapital : Q;
  totalAssets : Q;
  revenueGrowth : Q;
  grossMargin : Q;
  ebitdaMargin : Q;
  netMargin : Q;
  currentRatio : Q;
  quickRatio : Q;
  dso : Q;
  dpo : Q
}.

Section CalculationResults.

Variable data : FinancialAnalysisData.

Definition generalAddBacks : Q :=
  fold_left (fun sum b => sum + parseNum (amount b)) (addBacks data) 0.
Definition ownerComp : Q := parseNum (ownerCompAddBack data).
Definition totalAddBacks : Q := generalAddBacks + ownerComp.

(** [parseInt(data.ytdMonths) || 1] *)
Definition ytdMonthsNum : Z := Js.or_elseZ (Js.parseInt (ytdMonths data) 0) 1.
Definition annualizationFactor : Q :=
  if ((0 <? ytdMonthsNum) && (ytdMonthsNum <? 12))%Z
  then 12 / inject_Z ytdMonthsNum else 1.

Definition calculateMetrics (p : FinancialPeriod)
    (prevPeriod : option FinancialPeriod) (isAnnualized : bool) : Metrics :=
  (* IS Metrics *)
  let revenue' := if isAnnualized then parseNum (revenue p) * annualizationFactor
                  else parseNum (revenue p) in
  let cogs' := if isAnnualized then parseNum (cogs p) * annualizationFactor
               else parseNum (cogs p) in
  let opEx := if isAnnualized then parseNum (operatingExpenses p) * annualizationFactor
              else parseNum (operatingExpenses p) in
  let depr := parseNum (depreciation p) in
  let amort := parseNum (amortization p) in
  let interest := parseNum (interestExpense p) in
  let taxes' := parseNum (taxes p) in
  (* BS Metrics (not annualized) *)
  let cash' := parseNum (cash p) in
  let ar := parseNum (accountsReceivable p) in
  let inventory' := parseNum (inventory p) in
  let otherCurrentAssets' := parseNum (otherCurrentAssets p) in
  let longTermAssets' := parseNum (longTermAssets p) in
  let ap := parseNum (accountsPayable p) in
  let shortTermDebt' := parseNum (shortTermDebt p) in
  let otherCurrentLiabilities' := parseNum (otherCurrentLiabilities p) in
  (* Calculations *)
  let grossProfit' := revenue' - cogs' in
  let ebitda' := grossProfit' - opEx in
  let ebit := ebitda' - depr - amort in
  let netIncome' := ebit - interest - taxes' in
  let normalizedEbitda' := ebitda' + totalAddBacks - ownerComp in
  let normalizedSde' := normalizedEbitda' + ownerComp in
  let totalCurrentAssets := cash' + ar + inventory' + otherCurrentAssets' in
  let totalAssets' := totalCurrentAssets + longTermAssets' in
  let totalCurrentLiabilities := ap + shortTermDebt' + otherCurrentLiabilities' in
  let netWorkingCapital' :=
    (ar + inventory' + otherCurrentAssets') - (ap + otherCurrentLiabilities') in
  let prevRevenue :=
    match prevPeriod with Some q => parseNum (revenue q) | None => 0 end in
  let revenueGrowth' :=
    if Js.truthy prevRevenue then (revenue' - prevRevenue) / prevRevenue else 0 in
  let grossMargin' := if Js.truthy revenue' then grossProfit' / revenue' else 0 in
  let ebitdaMargin' := if Js.truthy revenue' then ebitda' / revenue' else 0 in
  let netMargin' := if Js.truthy revenue' then netIncome' / revenue' else 0 in
  let currentRatio' :=
    if Js.truthy totalCurrentLiabilities
    then totalCurrentAssets / totalCurrentLiabilities else 0 in
  let quickRatio' :=
    if Js.truthy totalCurrentLiabilities
    then (cash' + ar) / totalCurrentLiabilities else 0 in
  let prevAR :=
    match prevPeriod with
    | Some q => parseNum (accountsReceivable q) | None => ar end in
  let avgAR := (ar + prevAR) / 2 in
  let dso' := if Js.truthy revenue' then (avgAR / revenue') * 365 else 0 in
  let prevAP :=
    match prevPeriod with
    | Some q => parseNum (accountsPayable q) | None => ap end in
  let avgAP := (ap + prevAP) / 2 in
  let dpo' := if Js.truthy cogs' then (avgAP / cogs') * 365 else 0 in
  {| m_id := id p; m_periodName := periodName p; m_revenue := revenue';
     grossProfit := grossProfit'; ebitda := ebitda'; netIncome := netIncome';
     normalizedEbitda := normalizedEbitda'; normalizedSde := normalizedSde';
     netWorkingCapital := netWorkingCapital'; totalAssets := totalAssets';
     revenueGrowth := revenueGrowth'; grossMargin := grossMargin';
     ebitdaMargin := ebitdaMargin'; netMargin := netMargin';
     currentRatio := currentRatio'; quickRatio := quickRatio';
     dso := dso'; dpo := dpo' |}.

(** The synthetic period: the YTD actuals under the name of the current
    year and the identifier the annualisation is keyed on. *)
Definition ytdAnnualizedPeriod (currentYear : Z) : FinancialPeriod :=
  let y := ytdActuals data in
  {| id := "ytd-annualized";
     periodName := NilZero.string_of_int (Z.to_int currentYear) ++ " (Ann.)";
     revenue := revenue y; cogs := cogs y;
     operatingExpenses := operatingExpenses y;
     depreciation := depreciation y; amortization := amortization y;
     interestExpense := interestExpense y; taxes := taxes y;
     cash := cash y; accountsReceivable := accountsReceivable y;
     inventory := inventory y; otherCurrentAssets := otherCurrentAssets y;
     longTermAssets := longTermAssets y; accountsPayable := accountsPayable y;
     shortTermDebt := shortTermDebt y;
     otherCurrentLiabilities := otherCurrentLiabilities y;
     longTermDebt := longTermDebt y;
     shareholderEquity := shareholderEquity y |}.

(** The comparator of the sort, [parseInt(a.periodName) -
    parseInt(b.periodName)]; a NaN difference is read as 0. *)
Definition byYear (a b : FinancialPeriod) : Z :=
  match Js.parseInt (periodName a) 0, Js.parseInt (periodName b) 0 with
  | Some x, Some y => (x - y)%Z
  | _, _ => 0%Z
  end.

Fixpoint insertSorted (x : FinancialPeriod) (l : list FinancialPeriod)
  : list FinancialPeriod :=
  match l with
  | y :: r => if (byYear x y <? 0)%Z then x :: l else y :: insertSorted x r
  | [] => [x]
  end.

(** [Array.prototype.sort] with [byYear], as a stable insertion sort.
    When a name does not parse the comparator is not an order and the
    engine may answer with another permutation. *)
Definition sortByYear (l : list FinancialPeriod) : list FinancialPeriod :=
  fold_left (fun acc x => insertSorted x acc) l [].

Definition allPeriodsForCalc (currentYear : Z) : list FinancialPeriod :=
  sortByYear (periods data ++ [ytdAnnualizedPeriod currentYear]).

(** [allPeriodsForCalc.map((p, index) => ...)]: each period with the one
    before it in the list. *)
Fixpoint calculationsFrom (prevPeriod : option FinancialPeriod)
    (l : list FinancialPeriod) : list Metrics :=
  match l with
  | p :: r =>
      calculateMetrics p prevPeriod (String.eqb (id p) "ytd-annualized")
      :: calculationsFrom (Some p) r
  | [] => []
  end.

Definition calculationsOf (l : list FinancialPeriod) : list Metrics :=
  calculationsFrom None l.

Record Results := {
  calculations : list Metrics;
  averageNWC : Q;
  ytdActualsCalculations : Metrics
}.

Definition calculationResults (currentYear : Z) : Results :=
  let calculations' := calculationsOf (allPeriodsForCalc currentYear) in
  {| calculations := calculations';
     ytdActualsCalculations := calculateMetrics (ytdActuals data) None false;
     averageNWC :=
       match calculations' with
       | [] => 0
       | _ => fold_left (fun sum c => sum + netWorkingCapital c) calculations' 0
              / inject_Z (Z.of_nat (List.length calculations'))
       end |}.

End CalculationResults.

End FinancialAnalysisHub.

(* ================================================================== *)
(** ** The valuation calculator (deal structure and debt service) *)

Module ValuationCalculator.

Inductive NoteType := interestOnly | amortizing.

Record ValuationInputs := {
  sde : string;
  askingMultiple : string;
  ownerSalary : string;
  closingCosts : string;
  liquidityMonths : string;
  loanAmount : string;
  sbaTerm : string;
  sbaRate : string;
  amortizingSellerNoteAmount : string;
  standbySellerNoteAmount : string;
  forgivableSellerNoteAmount : string;
  amortizingNoteTerm : string;
  amortizingNoteRate : string;
  amortizingNoteType : NoteType;
  stressTestPercent : string;
  standbyNoteRate : string;
  standbyNoteTerm : string;
  forgivenessPeriod : string;
  forgivenessCondition : string
}.

(** The optional fields of [ValuationErrors]; [None] is an absent field. *)
Record ValuationErrors := {
  err_loanAmount : option string;
  err_amortizingSellerNoteAmount : option string;
  err_standbySellerNoteAmount : option string;
  err_forgivableSellerNoteAmount : option string
}.

Definition noErrors : ValuationErrors :=
  {| err_loanAmount := None; err_amortizingSellerNoteAmount := None;
     err_standbySellerNoteAmount := None;
     err_forgivableSellerNoteAmount := None |}.

Definition is_digit_or_dot (c : ascii) : bool :=
  Js.is_digit c || Ascii.eqb c ".".

(** [Number(value.replace(/[^0-9.]/g, '')) || 0] *)
Definition parseCurrency (value : string) : Q :=
  Js.or_else (Js.Number (Js.filter is_digit_or_dot value)) 0.

Record Calculations := {
  enterpriseValue : Q;
  buyerEquity : Q;
  sbaDebtService : Q;
  sellerNoteDebtService : Q;
  totalDebtService : Q;
  totalCashToClose : Q;
  dscr : Q;
  netCashFlowToOwner : Q;
  isDscrLow : bool;
  liquidityTarget : Q;
  validationErrors : ValuationErrors;
  totalSellerFinancing : Q
}.

Definition errorMsg : string := "Total debt cannot exceed EV.".

Section Calculations.

Variable inputs : ValuationInputs.
Variables isAdvancedView isStressed : bool.

Definition numSDE := parseCurrency (sde inputs).
Definition numAskingMultiple := Js.or_else (Js.parseFloat (askingMultiple inputs)) 0.
Definition numLoanAmount := parseCurrency (loanAmount inputs).

Definition numAmortizingSellerNote :=
  parseCurrency (amortizingSellerNoteAmount inputs).
Definition numStandbySellerNote := parseCurrency (standbySellerNoteAmount inputs).
Definition numForgivableSellerNote :=
  parseCurrency (forgivableSellerNoteAmount inputs).
Definition totalSellerFinancing' :=
  numAmortizingSellerNote + numStandbySellerNote + numForgivableSellerNote.

Definition numOwnerSalary := parseCurrency (ownerSalary inputs).
Definition numClosingCosts := parseCurrency (closingCosts inputs).
Definition numLiquidityMonths :=
  Js.or_elseZ (Js.parseInt (liquidityMonths inputs) 10) 0.
Definition numSbaTerm := Js.or_elseZ (Js.parseInt (sbaTerm inputs) 10) 0.
Definition numSbaRate := Js.or_else (Js.parseFloat (sbaRate inputs)) 0.
Definition numAmortizingNoteTerm :=
  Js.or_elseZ (Js.parseInt (amortizingNoteTerm inputs) 10) 0.
Definition numAmortizingNoteRate :=
  Js.or_else (Js.parseFloat (amortizingNoteRate inputs)) 0.
Definition numStressTestPercent :=
  Js.or_else (Js.parseFloat (stressTestPercent inputs)) 0.

Definition enterpriseValue' := numSDE * numAskingMultiple.
Definition buyerEquity' := enterpriseValue' - numLoanAmount - totalSellerFinancing'.

Definition totalDebt := numLoanAmount + totalSellerFinancing'.
Definition validationErrors' : ValuationErrors :=
  if Js.gt totalDebt enterpriseValue'
  then {| err_loanAmount := Some errorMsg;
          err_amortizingSellerNoteAmount := Some errorMsg;
          err_standbySellerNoteAmount := Some errorMsg;
          err_forgivableSellerNoteAmount := Some errorMsg |}
  else noErrors.

Definition monthlySbaRate := numSbaRate / 100 / 12.
Definition numSbaPayments := (numSbaTerm * 12)%Z.
Definition monthlySbaPayment :=
  if ((0 <? numSbaPayments)%Z && Js.gt monthlySbaRate 0)%bool
  then (numLoanAmount * monthlySbaRate)
       / (1 - (1 + monthlySbaRate) ^ (- numSbaPayments))
  else if (0 <? numSbaPayments)%Z then numLoanAmount / inject_Z numSbaPayments
       else 0.

Definition monthlySellerRate := numAmortizingNoteRate / 100 / 12.
Definition numSellerPayments := (numAmortizingNoteTerm * 12)%Z.
Definition monthlySellerPayment :=
  if ((0 <? numSellerPayments)%Z && Js.gt monthlySellerRate 0)%bool
  then (numAmortizingSellerNote * monthlySellerRate)
       / (1 - (1 + monthlySellerRate) ^ (- numSellerPayments))
  else if (0 <? numSellerPayments)%Z
       then numAmortizingSellerNote / inject_Z numSellerPayments
       else 0.

(** The debt service of the senior loan is first set from the monthly
    payment and overwritten in the simple view. *)
Definition sbaDebtService' :=
  if isAdvancedView then monthlySbaPayment * 12
  else numLoanAmount * (13 # 100). (* 13% rule *)

Definition sellerNoteDebtService' :=
  if isAdvancedView then
    match amortizingNoteType inputs with
    | interestOnly => numAmortizingSellerNote * (numAmortizingNoteRate / 100)
    | amortizing => monthlySellerPayment * 12
    end
  else numAmortizingSellerNote * (5 # 100). (* 5% I/O rule *)

Definition totalDebtService' := sbaDebtService' + sellerNoteDebtService'.

Definition sdeForCalc :=
  if isStressed then numSDE * (1 - numStressTestPercent / 100) else numSDE.
Definition cashAvailableForDebt := sdeForCalc - numOwnerSalary.

Definition dscr' :=
  if Js.gt totalDebtService' 0 then cashAvailableForDebt / totalDebtService'
  else 0.
Definition netCashFlowToOwner' := cashAvailableForDebt - totalDebtService'.

Definition liquidityTarget' :=
  (totalDebtService' / 12) * inject_Z numLiquidityMonths.
Definition totalCashToClose' :=
  buyerEquity' + numClosingCosts + (if isAdvancedView then liquidityTarget' else 0).

Definition dscrThreshold : Q := if isAdvancedView then 3 # 2 else 5 # 4.
Definition isDscrLow' := Js.lt dscr' dscrThreshold.

Definition calculations : Calculations :=
  {| enterpriseValue := enterpriseValue'; buyerEquity := buyerEquity';
     sbaDebtService := sbaDebtService';
     sellerNoteDebtService := sellerNoteDebtService';
     totalDebtService := totalDebtService';
     totalCashToClose := totalCashToClose'; dscr := dscr';
     netCashFlowToOwner := netCashFlowToOwner'; isDscrLow := isDscrLow';
     liquidityTarget := liquidityTarget';
     validationErrors := validationErrors';
     totalSellerFinancing := totalSellerFinancing' |}.

End Calculations.

End ValuationCalculator.

(* ================================================================== *)
(** ** components/FinancialProjectionModeler.tsx *)

Module FinancialProjectionModeler.

Inductive OpExMode := percentOfRevenue | fixedAmount.

Record Assumptions := {
  revenueGrowthY1_monthly : string;
  revenueGrowthY2_annual : string;
  revenueGrowthY3_annual : string;
  cogsPercentOfRevenue : string;
  opExCalculationMode : OpExMode;
  opExPercentOfRevenue : string;
  opExFixedAmount : string;
  opExGrowthAnnual : string;
  annualCapex : string;
  debtServiceAnnual : string;
  effectiveTaxRate : string;
  startingRevenue : string;
  startingEbitda : string
}.

Definition is_numeric_char (c : ascii) : bool :=
  Js.is_digit c || Ascii.eqb c "." || Ascii.eqb c "-".

(** [parseFloat(String(val).replace(/[^0-9.-]/g, '')) || 0] *)
Definition parseNum (val : string) : Q :=
  Js.or_else (Js.parseFloat (Js.filter is_numeric_char val)) 0.

(** One row of the projection table, monthly or annual. *)
Record Row := {
  periodName : string;
  revenue : Q;
  cogs : Q;
  grossProfit : Q;
  opEx : Q;
  ebitda : Q;
  capex : Q;
  taxes : Q;
  netIncome : Q;
  fcf : Q
}.

Definition label (prefix : string) (i : nat) : string :=
  prefix ++ NilZero.string_of_uint (Nat.to_uint i).

Section Projections.

Variable assumptions : Assumptions.

Definition revGrowthMonthly := parseNum (revenueGrowthY1_monthly assumptions) / 100.
Definition revGrowthY2 := parseNum (revenueGrowthY2_annual assumptions) / 100.
Definition revGrowthY3 := parseNum (revenueGrowthY3_annual assumptions) / 100.
Definition cogsPct := parseNum (cogsPercentOfRevenue assumptions) / 100.
Definition opExPct := parseNum (opExPercentOfRevenue assumptions) / 100.
Definition opExFixed := parseNum (opExFixedAmount assumptions).
Definition opExGrowth := parseNum (opExGrowthAnnual assumptions) / 100.
Definition capexAnnual := parseNum (annualCapex assumptions).
Definition debtServiceYear := parseNum (debtServiceAnnual assumptions).
Definition taxRate := parseNum (effectiveTaxRate assumptions) / 100.
Definition startRev := parseNum (startingRevenue assumptions).

(** The body of the year-1 loop for month [i], from the revenue of the
    month before. *)
Definition monthRow (i : nat) (lastMonthRevenue : Q) : Row :=
  let revenue' := lastMonthRevenue * (1 + revGrowthMonthly) in
  let cogs' := revenue' * cogsPct in
  let grossProfit' := revenue' - cogs' in
  let opEx' :=
    match opExCalculationMode assumptions with
    | percentOfRevenue => revenue' * opExPct
    | fixedAmount => opExFixed / 12
    end in
  let ebitda' := grossProfit' - opEx' in
  let debtService := debtServiceYear / 12 in
  let capex' := capexAnnual / 12 in
  let ebt := ebitda' - debtService in
  let taxes' := if Js.gt ebt 0 then ebt * taxRate else 0 in
  let netIncome' := ebt - taxes' in
  let fcf' := ebitda' - taxes' - capex' in
  {| periodName := label "M" i; revenue := revenue'; cogs := cogs';
     grossProfit := grossProfit'; opEx := opEx'; ebitda := ebitda';
     capex := capex'; taxes := taxes'; netIncome := netIncome'; fcf := fcf' |}.

(** [for (let i = ...; i <= 12; i++)] with [todo] iterations left. *)
Fixpoint monthsFrom (todo i : nat) (lastMonthRevenue : Q) : list Row :=
  match todo with
  | O => []
  | S todo' =>
      let row := monthRow i lastMonthRevenue in
      row :: monthsFrom todo' (S i) (revenue row)
  end.

Definition monthlyProjections : list Row :=
  monthsFrom 12 1 (startRev / 12).

Definition addRow (acc month : Row) : Row :=
  {| periodName := periodName acc;
     revenue := revenue acc + revenue month; cogs := cogs acc + cogs month;
     grossProfit := grossProfit acc + grossProfit month;
     opEx := opEx acc + opEx month; ebitda := ebitda acc + ebitda month;
     capex := capex acc + capex month; taxes := taxes acc + taxes month;
     netIncome := netIncome acc + netIncome month; fcf := fcf acc + fcf month |}.

Definition emptyTotal : Row :=
  {| periodName := "Y1 Total"; revenue := 0; cogs := 0; grossProfit := 0;
     opEx := 0; ebitda := 0; capex := 0; taxes := 0; netIncome := 0; fcf := 0 |}.

Definition year1Total : Row := fold_left addRow monthlyProjections emptyTotal.

Definition yearRow (i : nat) (lastYear : Row) : Row :=
  let revGrowth := if (i =? 2)%nat then revGrowthY2 else revGrowthY3 in
  let revenue' := revenue lastYear * (1 + revGrowth) in
  let cogs' := revenue' * cogsPct in
  let grossProfit' := revenue' - cogs' in
  let opEx' :=
    match opExCalculationMode assumptions with
    | percentOfRevenue => revenue' * opExPct
    | fixedAmount => opEx lastYear * (1 + opExGrowth)
    end in
  let ebitda' := grossProfit' - opEx' in
  let ebt := ebitda' - debtServiceYear in
  let taxes' := if Js.gt ebt 0 then ebt * taxRate else 0 in
  let netIncome' := ebt - taxes' in
  let fcf' := ebitda' - taxes' - capexAnnual in
  {| periodName := label "Y" i; revenue := revenue'; cogs := cogs';
     grossProfit := grossProfit'; opEx := opEx'; ebitda := ebitda';
     capex := capexAnnual; taxes := taxes'; netIncome := netIncome';
     fcf := fcf' |}.

Definition annualProjections : list Row :=
  let y1 := year1Total in
  let y2 := yearRow 2 y1 in
  let y3 := yearRow 3 y2 in
  [y1; y2; y3].

End Projections.

End FinancialProjectionModeler.

(* ================================================================== *)
(** ** The buy box (App.tsx) and the two copies of the fit scorer *)

Module App.

(** [{ value: V; weight: number }] *)
Record Weighted (V : Type) := { value : V; weight : Q }.
Arguments value {V} _.
Arguments weight {V} _.

Record GrowthLevers := {
  sales : bool; ops : bool; consolidation : bool; leversWeight : Q
}.

(** The unions of string literals of the source are kept as strings. *)
Record BuyBoxCriteria := {
  geography : Weighted string;
  industryType : Weighted string;
  minSde : Weighted Q;
  maxSde : Weighted Q;
  customerConcentration : Weighted Q;
  minRecurringRevenue : Weighted Q;
  growthLevers : GrowthLevers;
  industryTrends : Weighted string;
  industryExpertise : list (string * string);
  sellerRole : Weighted string;
  teamStrength : Weighted string;
  businessModel : Weighted string;
  systemMessiness : Weighted Q;
  myPrimaryRole : Weighted string;
  desiredCulture : string;
  desiredCultureRationale : string;
  personalGoal : string;
  personalGoalRationale : string
}.

(** [keyof BuyBoxCriteria], in the order the fields are declared. *)
Inductive Key :=
| Kgeography | KindustryType | KminSde | KmaxSde | KcustomerConcentration
| KminRecurringRevenue | KgrowthLevers | KindustryTrends | KindustryExpertise
| KsellerRole | KteamStrength | KbusinessModel | KsystemMessiness
| KmyPrimaryRole | KdesiredCulture | KdesiredCultureRationale
| KpersonalGoal | KpersonalGoalRationale.

Definition keys : list Key :=
  [Kgeography; KindustryType; KminSde; KmaxSde; KcustomerConcentration;
   KminRecurringRevenue; KgrowthLevers; KindustryTrends; KindustryExpertise;
   KsellerRole; KteamStrength; KbusinessModel; KsystemMessiness;
   KmyPrimaryRole; KdesiredCulture; KdesiredCultureRationale;
   KpersonalGoal; KpersonalGoalRationale].

End App.

Module FitScore.
Import App.

(** The guard both scorers put on [buyBox[key]]: an object that is not an
    array and has a numeric [weight].  The list of expertise and the four
    texts have none. *)
Definition weightOf (buyBox : BuyBoxCriteria) (key : Key) : option Q :=
  match key with
  | Kgeography => Some (weight (geography buyBox))
  | KindustryType => Some (weight (industryType buyBox))
  | KminSde => Some (weight (minSde buyBox))
  | KmaxSde => Some (weight (maxSde buyBox))
  | KcustomerConcentration => Some (weight (customerConcentration buyBox))
  | KminRecurringRevenue => Some (weight (minRecurringRevenue buyBox))
  | KgrowthLevers => Some (leversWeight (growthLevers buyBox))
  | KindustryTrends => Some (weight (industryTrends buyBox))
  | KsellerRole => Some (weight (sellerRole buyBox))
  | KteamStrength => Some (weight (teamStrength buyBox))
  | KbusinessModel => Some (weight (businessModel buyBox))
  | KsystemMessiness => Some (weight (systemMessiness buyBox))
  | KmyPrimaryRole => Some (weight (myPrimaryRole buyBox))
  | KindustryExpertise | KdesiredCulture | KdesiredCultureRationale
  | KpersonalGoal | KpersonalGoalRationale => None
  end.

(** The table both files declare; [None] is the [null] of 'Culture'. *)
Definition criteriaNameToKeyMap : list (string * option Key) :=
  [("Geography", Some Kgeography);
   ("Industry", Some KindustryType);
   ("Financials (SDE)", Some KminSde);
   ("Revenue Quality", Some KminRecurringRevenue);
   ("Risk (Concentration)", Some KcustomerConcentration);
   ("Growth Levers", Some KgrowthLevers);
   ("Industry Trends", Some KindustryTrends);
   ("Seller Role", Some KsellerRole);
   ("Team Strength", Some KteamStrength);
   ("Business Model", Some KbusinessModel);
   ("Systems", Some KsystemMessiness);
   ("My Role", Some KmyPrimaryRole);
   (* non-weighted: *)
   ("Industry Expertise", Some KindustryExpertise);
   ("Culture", None)].

(** [criteriaNameToKeyMap[name]] when it is truthy.  A name the table
    lacks and 'Culture' give nothing; a name that only the prototype of
    the object answers leads to no criterion of the buy box either. *)
Definition lookupKey (name : string) : option Key :=
  match find (fun e => String.eqb (fst e) name) criteriaNameToKeyMap with
  | Some (_, k) => k
  | None => None
  end.

(** The [for (const key in buyBox)] loop, then the correction for the two
    SDE weights. *)
Definition totalPossibleScore (buyBox : BuyBoxCriteria) : Q :=
  let total :=
    fold_left (fun total key =>
                 match weightOf buyBox key with
                 | Some w => total + w
                 | None => total
                 end) keys 0 in
  if (Js.gt (weight (minSde buyBox)) 0 && Js.gt (weight (maxSde buyBox)) 0)%bool
  then total - weight (maxSde buyBox) (* Don't double-count SDE *)
  else total.

Definition newline : ascii := "010"%char.

(** The rows after the header and the separator, each cut into trimmed
    cells. *)
Definition rowsOf (scorecard : string) : list string :=
  skipn 2 (Js.split newline scorecard).
Definition columnsOf (row : string) : list string :=
  map Js.trim (Js.split "|" row).

(** What the inner block of the loop adds for a row whose criterion has
    been found with the weight [w]. *)
Definition credit (fit : string) (w : Q) (achievedScore : Q) : Q :=
  if String.eqb fit "yes" then achievedScore + w
  else if String.eqb fit "?" then achievedScore + w * (3 # 10)
  else achievedScore.

(** The copy of the sourcing engine (unnamed/part_003). *)
Module SourcingEngine.

Definition criteriaNameOf (columns : list string) : string :=
  Js.trim (Js.before " (Weight:" (nth 1 columns "")).
Definition fitOf (columns : list string) : string :=
  Js.toLowerCase (nth 3 columns "").

Definition scoreRow (buyBox : BuyBoxCriteria) (achievedScore : Q)
    (row : string) : Q :=
  let columns := columnsOf row in
  if (4 <=? List.length columns)%nat then
    let criteriaName := criteriaNameOf columns in
    let fit := fitOf columns in
    match lookupKey criteriaName with
    | Some buyBoxKey =>
        match weightOf buyBox buyBoxKey with
        | Some w => credit fit w achievedScore
        | None => achievedScore
        end
    | None => achievedScore
    end
  else achievedScore.

Definition calculateOverallFitScore (scorecard : string)
    (buyBox : BuyBoxCriteria) : option Z :=
  if String.eqb scorecard "" then None
  else
    let total := totalPossibleScore buyBox in
    if Qeq_bool total 0 then Some 50%Z (* Default if no weights set *)
    else
      let achievedScore := fold_left (scoreRow buyBox) (rowsOf scorecard) 0 in
      Some (Js.round ((achievedScore / total) * 100)).

End SourcingEngine.

(** The copy of the dashboard (components/CentralDashboard.tsx): bold
    markers leave the criterion name and tags leave the Fit cell. *)
Module CentralDashboard.

Definition criteriaNameOf (columns : list string) : string :=
  Js.remove_bold (Js.trim (Js.before " (Weight:" (nth 1 columns ""))).
Definition fitOf (columns : list string) : string :=
  Js.strip_tags (Js.toLowerCase (nth 3 columns "")).

Definition scoreRow (buyBox : BuyBoxCriteria) (achievedScore : Q)
    (row : string) : Q :=
  let columns := columnsOf row in
  if (4 <=? List.length columns)%nat then
    let criteriaName := criteriaNameOf columns in
    let fit := fitOf columns in
    match lookupKey criteriaName with
    | Some buyBoxKey =>
        match weightOf buyBox buyBoxKey with
        | Some w => credit fit w achievedScore
        | None => achievedScore
        end
    | None => achievedScore
    end
  else achievedScore.

Definition calculateOverallFitScore (scorecard : string)
    (buyBox : BuyBoxCriteria) : option Z :=
  if String.eqb scorecard "" then None
  else
    let total := totalPossibleScore buyBox in
    if Qeq_bool total 0 then Some 50%Z
    else
      let achievedScore := fold_left (scoreRow buyBox) (rowsOf scorecard) 0 in
      Some (Js.round ((achievedScore / total) * 100)).

End CentralDashboard.

Definition weighted {V} (v : V) (w : Q) : Weighted V := {| value := v; weight := w |}.

(** [defaultBuyBoxCriteria] of App.tsx. *)
Definition defaultBuyBoxCriteria : BuyBoxCriteria :=
  {| geography := weighted "Texas" 2;
     industryType := weighted "B2B Facility Services" 3;
     minSde := weighted 400000 3;
     maxSde := weighted 800000 3;
     customerConcentration := weighted 30 2;
     minRecurringRevenue := weighted 0 1;
     growthLevers := {| sales := false; ops := false; consolidation := false;
                        leversWeight := 1 |};
     industryTrends := weighted "Fragmented" 1;
     industryExpertise := [];
     sellerRole := weighted "operator" 2;
     teamStrength := weighted "Has a manager in place" 2;
     businessModel := weighted "assetLight" 1;
     systemMessiness := weighted 3 1;
     myPrimaryRole := weighted "manager" 1;
     desiredCulture := "Professional, team-oriented";
     desiredCultureRationale := "";
     personalGoal := "Flexibility";
     personalGoalRationale := "" |}.

End FitScore.

(* ================================================================== *)
(** * Notions of the specification, and sample inputs *)

Module Spec.
Import FinancialAnalysisHub.



(** A period with the given income-statement and balance-sheet texts. *)
Definition samplePeriod (name rev cg opx ar' ap' : string) : FinancialPeriod :=
  {| id := name; periodName := name; revenue := rev; cogs := cg;
     operatingExpenses := opx; depreciation := "10,000"; amortization := "";
     interestExpense := "5000"; taxes := "20000"; cash := "50,000";
     accountsReceivable := ar'; inventory := "40000";
     otherCurrentAssets := "1000"; longTermAssets := "300000";
     accountsPayable := ap'; shortTermDebt := "30000";
     otherCurrentLiabilities := "40000"; longTermDebt := "220000";
     shareholderEquity := "800000" |}.

Definition sampleAddBacks : list AddBack :=
  [ {| addBackId := "a1"; description := "One-time legal fees";
       amount := "15,000"; category := NonRecurringExpenses |};
    {| addBackId := "a2"; description := "Personal vehicle";
       amount := "7500.50"; category := Personal |} ].

Definition sampleData (months : string) : FinancialAnalysisData :=
  {| companyName := "Example Co";
     periods := [samplePeriod "2023" "2,400,000" "1,400,000" "600,000" "200000" "90000";
                 samplePeriod "2022" "2,000,000" "1,200,000" "500,000" "180000" "80000"];
     addBacks := sampleAddBacks;
     ytdMonths := months;
     ytdActuals := samplePeriod "YTD Actuals" "1,300,000" "750,000" "320,000" "210000" "95000";
     ownerCompAddBack := "120000";
     financialNotes := ""; addBackNotes := "" |}.

End Spec.

Module ValuationSamples.
Import ValuationCalculator.

(** [defaultInputs] of the calculator. *)
Definition defaultInputs : ValuationInputs :=
  {| sde := "500,000"; askingMultiple := "3.0"; ownerSalary := "120,000";
     closingCosts := "40,000"; liquidityMonths := "3";
     loanAmount := "1,050,000"; sbaTerm := "10"; sbaRate := "9.5";
     amortizingSellerNoteAmount := "150,000";
     standbySellerNoteAmount := "150,000";
     forgivableSellerNoteAmount := "150,000";
     amortizingNoteTerm := "5"; amortizingNoteRate := "6.0";
     amortizingNoteType := interestOnly; stressTestPercent := "10";
     standbyNoteRate := "6.0"; standbyNoteTerm := "10";
     forgivenessPeriod := "2";
     forgivenessCondition :=
       "Seller stays on as full-time consultant for the forgiveness period." |}.


(** The same inputs with other standby and forgivable note amounts. *)
Definition withNotes (i : ValuationInputs) (standby forgivable : string)
  : ValuationInputs :=
  {| sde := sde i; askingMultiple := askingMultiple i;
     ownerSalary := ownerSalary i; closingCosts := closingCosts i;
     liquidityMonths := liquidityMonths i;
     loanAmount := loanAmount i; sbaTerm := sbaTerm i; sbaRate := sbaRate i;
     amortizingSellerNoteAmount := amortizingSellerNoteAmount i;
     standbySellerNoteAmount := standby;
     forgivableSellerNoteAmount := forgivable;
     amortizingNoteTerm := amortizingNoteTerm i;
     amortizingNoteRate := amortizingNoteRate i;
     amortizingNoteType := amortizingNoteType i;
     stressTestPercent := stressTestPercent i;
     standbyNoteRate := standbyNoteRate i; standbyNoteTerm := standbyNoteTerm i;
     forgivenessPeriod := forgivenessPeriod i;
     forgivenessCondition := forgivenessCondition i |}.


(** Two records differ at most in the amounts of the standby and of the
    forgivable seller note. *)
Definition sameButStandbyForgivable (a b : ValuationInputs) : Prop :=
  sde a = sde b /\ askingMultiple a = askingMultiple b
  /\ ownerSalary a = ownerSalary b /\ closingCosts a = closingCosts b
  /\ liquidityMonths a = liquidityMonths b /\ loanAmount a = loanAmount b
  /\ sbaTerm a = sbaTerm b /\ sbaRate a = sbaRate b
  /\ amortizingSellerNoteAmount a = amortizingSellerNoteAmount b
  /\ amortizingNoteTerm a = amortizingNoteTerm b
  /\ amortizingNoteRate a = amortizingNoteRate b
  /\ amortizingNoteType a = amortizingNoteType b
  /\ stressTestPercent a = stressTestPercent b
  /\ standbyNoteRate a = standbyNoteRate b
  /\ standbyNoteTerm a = standbyNoteTerm b
  /\ forgivenessPeriod a = forgivenessPeriod b
  /\ forgivenessCondition a = forgivenessCondition b.


End ValuationSamples.

Module ProjectionSamples.
Import FinancialProjectionModeler.

(** [defaultAssumptions] of the modeler, with the starting revenue and the
    monthly growth left open. *)
Definition sampleAssumptions (start growth : string) : Assumptions :=
  {| revenueGrowthY1_monthly := growth; revenueGrowthY2_annual := "10.0";
     revenueGrowthY3_annual := "8.0"; cogsPercentOfRevenue := "60.0";
     opExCalculationMode := percentOfRevenue; opExPercentOfRevenue := "25.0";
     opExFixedAmount := "500000"; opExGrowthAnnual := "3.0";
     annualCapex := "25000"; debtServiceAnnual := "136500";
     effectiveTaxRate := "25.0"; startingRevenue := start;
     startingEbitda := "375000" |}.

(** Revenue of month [m] (from 1), 0 past the end of the table. *)
Definition monthRevenue (a : Assumptions) (m : nat) : Q :=
  match nth_error (monthlyProjections a) (m - 1) with
  | Some row => revenue row
  | None => 0
  end.

End ProjectionSamples.

Module ParseSpec.




End ParseSpec.

Module FitSpec.
Import App FitScore.

(** The credit of one data row, as section 4.6 words it: the full weight
    for a Fit cell "yes", 30% of it for "?", nothing otherwise and nothing
    for a row of fewer than four cells or of a criterion without weight.
    [nameOf] and [fitOf] are the normalisations of the scorer at hand. *)
Definition rowCredit (nameOf fitOf : list string -> string)
    (buyBox : BuyBoxCriteria) (row : string) : Q :=
  let columns := columnsOf row in
  if (4 <=? List.length columns)%nat then
    match lookupKey (nameOf columns) with
    | Some key =>
        match weightOf buyBox key with
        | Some w =>
            if String.eqb (fitOf columns) "yes" then w
            else if String.eqb (fitOf columns) "?" then (3 # 10) * w
            else 0
        | None => 0
        end
    | None => 0
    end
  else 0.

Definition sumCredits (nameOf fitOf : list string -> string)
    (buyBox : BuyBoxCriteria) (rows : list string) : Q :=
  fold_right (fun row s => rowCredit nameOf fitOf buyBox row + s) 0 rows.

(** A buy box whose only weights are those of geography and industry. *)
Definition buyBoxWith (wGeography wIndustry : Q) : BuyBoxCriteria :=
  {| geography := weighted "Texas" wGeography;
     industryType := weighted "SaaS" wIndustry;
     minSde := weighted 400000 0; maxSde := weighted 800000 0;
     customerConcentration := weighted 30 0;
     minRecurringRevenue := weighted 0 0;
     growthLevers := {| sales := false; ops := false; consolidation := false;
                        leversWeight := 0 |};
     industryTrends := weighted "" 0; industryExpertise := [];
     sellerRole := weighted "" 0; teamStrength := weighted "" 0;
     businessModel := weighted "" 0; systemMessiness := weighted 3 0;
     myPrimaryRole := weighted "" 0;
     desiredCulture := ""; desiredCultureRationale := "";
     personalGoal := ""; personalGoalRationale := "" |}.

Definition lines (l : list string) : string :=
  String.concat (String newline "") l.

(** A scorecard of two data rows with the given Fit cells. *)
Definition scorecardWith (fitGeography fitIndustry : string) : string :=
  lines ["| Criterion | Status | Fit | Rationale |";
         "|---|---|---|---|";
         "| Geography (Weight: 2) | Houston | " ++ fitGeography ++ " | In Texas |";
         "| Industry (Weight: 3) | SaaS | " ++ fitIndustry ++ " | Not services |"].

(** Every weight of the buy box is 0. *)
Definition allWeightsZero (buyBox : BuyBoxCriteria) : Prop :=
  forall key w, weightOf buyBox key = Some w -> w == 0.

End FitSpec.

(* ================================================================== *)
(** * The rest of the financial analysis hub: editing the periods *)

Module HubHandlers.
Import FinancialAnalysisHub.




(** [handleDataChange('periods', v)] and [handleDataChange('ytdActuals', v)] *)
Definition withPeriods (data : FinancialAnalysisData) (v : list FinancialPeriod)
  : FinancialAnalysisData :=
  {| companyName := companyName data; periods := v; addBacks := addBacks data;
     ytdMonths := ytdMonths data; ytdActuals := ytdActuals data;
     ownerCompAddBack := ownerCompAddBack data;
     financialNotes := financialNotes data; addBackNotes := addBackNotes data |}.





(** [n.toString()] for an integer. *)
Definition toString (n : Z) : string := NilZero.string_of_int (Z.to_int n).



Definition handleRemovePeriod (data : FinancialAnalysisData) (periodId : string)
  : FinancialAnalysisData :=
  if (List.length (periods data) <=? 1)%nat then data
  else withPeriods data
         (List.filter (fun p => negb (String.eqb (id p) periodId)) (periods data)).

(** The year a period is sorted by; [None] when its name has none. *)
Definition yearOf (p : FinancialPeriod) : option Z := Js.parseInt (periodName p) 0.

(** [b] is not of an earlier year than [a]; both years are known. *)
Definition chronological (a b : FinancialPeriod) : Prop :=
  exists x y, yearOf a = Some x /\ yearOf b = Some y /\ (x <= y)%Z.

(** Net working capital as read from the balance-sheet texts of a period. *)
Definition nwcOf (p : FinancialPeriod) : Q :=
  (parseNum (accountsReceivable p) + parseNum (inventory p)
   + parseNum (otherCurrentAssets p))
  - (parseNum (accountsPayable p) + parseNum (otherCurrentLiabilities p)).

Definition sumQ (l : list Q) : Q := fold_right Qplus 0 l.

(** Field by field, two rows of results are the same numbers. *)
Definition sameMetrics (a b : Metrics) : Prop :=
  m_id a = m_id b /\ m_periodName a = m_periodName b
  /\ m_revenue a == m_revenue b /\ grossProfit a == grossProfit b
  /\ ebitda a == ebitda b /\ netIncome a == netIncome b
  /\ normalizedEbitda a == normalizedEbitda b
  /\ normalizedSde a == normalizedSde b
  /\ netWorkingCapital a == netWorkingCapital b /\ totalAssets a == totalAssets b
  /\ revenueGrowth a == revenueGrowth b /\ grossMargin a == grossMargin b
  /\ ebitdaMargin a == ebitdaMargin b /\ netMargin a == netMargin b
  /\ currentRatio a == currentRatio b /\ quickRatio a == quickRatio b
  /\ dso a == dso b /\ dpo a == dpo b.

End HubHandlers.

Module DecimalText.

(** The value of a decimal numeral read digit by digit after [acc]. *)
Fixpoint readUint (d : Decimal.uint) (acc : Z) : Z :=
  match d with
  | Decimal.Nil => acc
  | Decimal.D0 d => readUint d (acc * 10 + 0)
  | Decimal.D1 d => readUint d (acc * 10 + 1)
  | Decimal.D2 d => readUint d (acc * 10 + 2)
  | Decimal.D3 d => readUint d (acc * 10 + 3)
  | Decimal.D4 d => readUint d (acc * 10 + 4)
  | Decimal.D5 d => readUint d (acc * 10 + 5)
  | Decimal.D6 d => readUint d (acc * 10 + 6)
  | Decimal.D7 d => readUint d (acc * 10 + 7)
  | Decimal.D8 d => readUint d (acc * 10 + 8)
  | Decimal.D9 d => readUint d (acc * 10 + 9)
  end%Z.

(** Reading stops at the head of [rest]. *)
Definition stopsDigits (rest : string) : Prop :=
  forall v k, Js.read_digits 10 rest v k = (v, k, rest).

End DecimalText.

Module ValuationSpec.
Import ValuationCalculator.


(** Two records differ at most in the terms, the rates and the repayment
    type of the loans and notes (and in the texts of the forgivable note). *)
Definition sameButTerms (a b : ValuationInputs) : Prop :=
  sde a = sde b /\ askingMultiple a = askingMultiple b
  /\ ownerSalary a = ownerSalary b /\ closingCosts a = closingCosts b
  /\ liquidityMonths a = liquidityMonths b /\ loanAmount a = loanAmount b
  /\ amortizingSellerNoteAmount a = amortizingSellerNoteAmount b
  /\ standbySellerNoteAmount a = standbySellerNoteAmount b
  /\ forgivableSellerNoteAmount a = forgivableSellerNoteAmount b
  /\ stressTestPercent a = stressTestPercent b.

(** The inputs with other terms and rates. *)
Definition withTerms (i : ValuationInputs)
    (term rate noteTerm noteRate : string) (noteType : NoteType) : ValuationInputs :=
  {| sde := sde i; askingMultiple := askingMultiple i;
     ownerSalary := ownerSalary i; closingCosts := closingCosts i;
     liquidityMonths := liquidityMonths i;
     loanAmount := loanAmount i; sbaTerm := term; sbaRate := rate;
     amortizingSellerNoteAmount := amortizingSellerNoteAmount i;
     standbySellerNoteAmount := standbySellerNoteAmount i;
     forgivableSellerNoteAmount := forgivableSellerNoteAmount i;
     amortizingNoteTerm := noteTerm; amortizingNoteRate := noteRate;
     amortizingNoteType := noteType;
     stressTestPercent := stressTestPercent i;
     standbyNoteRate := standbyNoteRate i; standbyNoteTerm := standbyNoteTerm i;
     forgivenessPeriod := forgivenessPeriod i;
     forgivenessCondition := forgivenessCondition i |}.


End ValuationSpec.

Module ProjectionSpec.
Import FinancialProjectionModeler.

(** The months of year 1 followed by the three annual rows. *)
Definition allRows (a : Assumptions) : list Row :=
  monthlyProjections a ++ annualProjections a.

(** A column of the table that the year-1 total adds up. *)
Definition additive (f : Row -> Q) : Prop :=
  forall acc month, f (addRow acc month) = f acc + f month.

Definition sumOf (f : Row -> Q) (l : list Row) : Q :=
  fold_right (fun row s => f row + s) 0 l.


End ProjectionSpec.

Module FitBounds.
Import App FitScore.

(** The criterion a data row is about, when it has four cells and its name
    is in the table. *)
Definition rowKey (nameOf : list string -> string) (row : string) : option Key :=
  let columns := columnsOf row in
  if (4 <=? List.length columns)%nat then lookupKey (nameOf columns) else None.

Fixpoint keysOf (nameOf : list string -> string) (rows : list string) : list Key :=
  match rows with
  | row :: rest =>
      match rowKey nameOf row with
      | Some key => key :: keysOf nameOf rest
      | None => keysOf nameOf rest
      end
  | [] => []
  end.

Definition weightOr0 (buyBox : BuyBoxCriteria) (key : Key) : Q :=
  match weightOf buyBox key with Some w => w | None => 0 end.

(** No weight of the buy box is negative. *)
Definition nonnegWeights (buyBox : BuyBoxCriteria) : Prop :=
  forall key w, weightOf buyBox key = Some w -> 0 <= w.

(** The keys the table of names leads to. *)
Definition scoredKeys : list Key :=
  [Kgeography; KindustryType; KminSde; KminRecurringRevenue;
   KcustomerConcentration; KgrowthLevers; KindustryTrends; KsellerRole;
   KteamStrength; KbusinessModel; KsystemMessiness; KmyPrimaryRole;
   KindustryExpertise].

Definition sumWeights (buyBox : BuyBoxCriteria) (l : list Key) : Q :=
  fold_right (fun key s => weightOr0 buyBox key + s) 0 l.

Definition Key_eq_dec (a b : Key) : {a = b} + {a <> b}.
Proof. decide equality. Defined.

End FitBounds.

Module FitText.
Import FitScore.


(** The text has neither [<] nor [*]. *)
Definition plainText (s : string) : Prop :=
  Js.contains "<" s = false /\ Js.contains "*" s = false.

End FitText.

(* ------------------------------------------------------------------ *)
(** ** src/App.tsx: [useHistory], the undo history of the buy box *)

Module History.

(** The state of the hook. *)
Record History (T : Type) := {
  past : list T;
  present : T;
  future : list T
}.
Arguments past {T} _.
Arguments present {T} _.
Arguments future {T} _.

(** [React.SetStateAction<T>]: a new state or a function of the old one. *)
Inductive SetStateAction (T : Type) :=
| Value (newState : T)
| Updater (f : T -> T).
Arguments Value {T} _.
Arguments Updater {T} _.

Section UseHistory.
Context {T : Type}.
(** [JSON.stringify] at the type of the state. *)
Variable stringify : T -> string.

Definition canUndo (history : History T) : bool :=
  (0 <? List.length (past history))%nat.
Definition canRedo (history : History T) : bool :=
  (0 <? List.length (future history))%nat.

Definition set (newStateAction : SetStateAction T)
    (currentHistory : History T) : History T :=
  let newPresent :=
    match newStateAction with
    | Updater f => f (present currentHistory)
    | Value v => v
    end in
  if String.eqb (stringify newPresent) (stringify (present currentHistory))
  then currentHistory
  else
    let newPast := (past currentHistory ++ [present currentHistory])%list in
    {| past := newPast; present := newPresent; future := [] |}.

(** [undo]: nothing without a past; the index [length - 1] is then inside
    the array, so that the last branch is never taken. *)
Definition undo (currentHistory : History T) : History T :=
  if negb (canUndo currentHistory) then currentHistory
  else
    let n := (List.length (past currentHistory) - 1)%nat in
    let newPast := firstn n (past currentHistory) in
    match nth_error (past currentHistory) n with
    | Some previousState =>
        {| past := newPast; present := previousState;
           future := present currentHistory :: future currentHistory |}
    | None => currentHistory
    end.

Definition redo (currentHistory : History T) : History T :=
  if negb (canRedo currentHistory) then currentHistory
  else
    match future currentHistory with
    | nextState :: newFuture =>
        {| past := (past currentHistory ++ [present currentHistory])%list;
           present := nextState; future := newFuture |}
    | [] => currentHistory
    end.

(** All states of the history, oldest first. *)
Definition timeline (history : History T) : list T :=
  (past history ++ present history :: future history)%list.

End UseHistory.

End History.

(* ------------------------------------------------------------------ *)
(** ** src/App.tsx: the saved buy-box profiles *)

Module Profiles.
Import App FitScore.

Record SavedProfile := { name : string; criteria : BuyBoxCriteria }.

(** What the handlers read and write: the profiles, the buy box on screen
    (the present state of its history) and the name of the profile at
    hand, [None] for [null]. *)
Record ProfileState := {
  savedProfiles : list SavedProfile;
  buyBox : BuyBoxCriteria;
  currentProfileName : option string
}.

(** [a.toLowerCase() === b.toLowerCase()] *)
Definition sameName (a b : string) : bool :=
  String.eqb (Js.toLowerCase a) (Js.toLowerCase b).

Definition isCurrent (st : ProfileState) (n : string) : bool :=
  match currentProfileName st with
  | Some c => String.eqb c n
  | None => false
  end.

Definition handleNewProfile (st : ProfileState) : ProfileState :=
  {| savedProfiles := savedProfiles st;
     buyBox := defaultBuyBoxCriteria;
     currentProfileName := None |}.

(** [confirm] is the answer to [window.confirm]. *)
Definition handleSaveProfile (confirm : bool) (profileName : string)
    (st : ProfileState) : ProfileState :=
  match find (fun p => sameName (name p) profileName) (savedProfiles st) with
  | Some _ =>
      if negb confirm then st
      else
        let updatedProfiles :=
          map (fun p => if sameName (name p) profileName
                        then {| name := profileName; criteria := buyBox st |}
                        else p) (savedProfiles st) in
        {| savedProfiles := updatedProfiles; buyBox := buyBox st;
           currentProfileName := Some profileName |}
  | None =>
      let newProfile := {| name := profileName; criteria := buyBox st |} in
      {| savedProfiles := (savedProfiles st ++ [newProfile])%list;
         buyBox := buyBox st;
         currentProfileName := Some profileName |}
  end.

Definition handleLoadProfile (profileName : string) (st : ProfileState)
    : ProfileState :=
  match find (fun p => String.eqb (name p) profileName) (savedProfiles st) with
  | Some profileToLoad =>
      {| savedProfiles := savedProfiles st;
         buyBox := criteria profileToLoad;
         currentProfileName := Some profileName |}
  | None => st
  end.

Definition handleRenameProfile (oldName newName : string)
    (st : ProfileState) : ProfileState :=
  if String.eqb newName "" || String.eqb (Js.trim newName) ""
     || sameName (Js.trim newName) oldName
  then st
  else
    let nameExists :=
      existsb (fun p => sameName (name p) (Js.trim newName))
        (savedProfiles st) in
    if nameExists then st
    else
      let updatedProfiles :=
        map (fun p => if String.eqb (name p) oldName
                      then {| name := Js.trim newName; criteria := criteria p |}
                      else p) (savedProfiles st) in
      {| savedProfiles := updatedProfiles; buyBox := buyBox st;
         currentProfileName :=
           if isCurrent st oldName then Some (Js.trim newName)
           else currentProfileName st |}.

Definition handleDeleteProfile (confirm : bool) (profileName : string)
    (st : ProfileState) : ProfileState :=
  if String.eqb profileName "Default" then st
  else if confirm then
    let remaining :=
      List.filter (fun p => negb (String.eqb (name p) profileName))
        (savedProfiles st) in
    if isCurrent st profileName then
      match find (fun p => String.eqb (name p) "Default") (savedProfiles st) with
      | Some defaultProfile =>
          {| savedProfiles := remaining; buyBox := criteria defaultProfile;
             currentProfileName := Some "Default" |}
      | None =>
          {| savedProfiles := remaining; buyBox := defaultBuyBoxCriteria;
             currentProfileName := None |}
      end
    else
      {| savedProfiles := remaining; buyBox := buyBox st;
         currentProfileName := currentProfileName st |}
  else st.

(** What the user can do on the profiles. *)
Inductive ProfileAction :=
| NewProfile
| SaveProfile (confirm : bool) (profileName : string)
| LoadProfile (profileName : string)
| RenameProfile (oldName newName : string)
| DeleteProfile (confirm : bool) (profileName : string).

Definition handle (st : ProfileState) (a : ProfileAction) : ProfileState :=
  match a with
  | NewProfile => handleNewProfile st
  | SaveProfile confirm n => handleSaveProfile confirm n st
  | LoadProfile n => handleLoadProfile n st
  | RenameProfile o n => handleRenameProfile o n st
  | DeleteProfile confirm n => handleDeleteProfile confirm n st
  end.

(** The state after the load effect when no profile is stored. *)
Definition firstState : ProfileState :=
  {| savedProfiles := [{| name := "Default"; criteria := defaultBuyBoxCriteria |}];
     buyBox := defaultBuyBoxCriteria;
     currentProfileName := Some "Default" |}.

Definition lowerName (p : SavedProfile) : string := Js.toLowerCase (name p).

(** No two profiles have the same name up to letter case. *)
Definition namesDistinct (st : ProfileState) : Prop :=
  NoDup (map lowerName (savedProfiles st)).

(** The name of the profile at hand, if any, is that of a saved profile. *)
Definition currentIsSaved (st : ProfileState) : Prop :=
  match currentProfileName st with
  | Some c => exists p, In p (savedProfiles st) /\ name p = c
  | None => True
  end.

End Profiles.

(* ------------------------------------------------------------------ *)
(** ** src/unnamed/part_003: the filters of the sourcing results *)

Module SourcingFilters.

(** The fields of [SourcingResult] that the filters read; [None] is
    [null], and for [error] the absent field. *)
Record SourcingResult := {
  overallFitScore : option Z;
  sde : option Q;
  industry : option string;
  error : option string
}.

(** A string used as a condition. *)
Definition nonEmpty (s : string) : bool := negb (String.eqb s "").

(** [s.includes(needle)] *)
Fixpoint includes (needle s : string) : bool :=
  String.prefix needle s
  || match s with
     | String _ r => includes needle r
     | EmptyString => false
     end.

(** An upper bound: [Infinity], or the result of [parseInt] with [None]
    for NaN. *)
Inductive UpperBound :=
| Infinity
| Parsed (n : option Z).

Definition withoutCommas (s : string) : string :=
  Js.filter (fun c => negb (Ascii.eqb c ",")) s.

Section ApplyFilters.
Variable filterScoreMin : Z.
Variables filterIndustry filterSdeMin filterSdeMax : string.

Definition minSde : option Z :=
  if nonEmpty filterSdeMin then Js.parseInt (withoutCommas filterSdeMin) 10
  else Some 0%Z.
Definition maxSde : UpperBound :=
  if nonEmpty filterSdeMax
  then Parsed (Js.parseInt (withoutCommas filterSdeMax) 10)
  else Infinity.

(** [x >= minSde] and [x <= maxSde]; a comparison with NaN is false. *)
Definition geMin (x : Q) : bool :=
  match minSde with
  | Some m => Qle_bool (inject_Z m) x
  | None => false
  end.
Definition leMax (x : Q) : bool :=
  match maxSde with
  | Infinity => true
  | Parsed (Some m) => Qle_bool x (inject_Z m)
  | Parsed None => false
  end.

Definition scoreMatch (result : SourcingResult) : bool :=
  (filterScoreMin <=? Js.or_elseZ (overallFitScore result) 0)%Z.

Definition industryMatch (result : SourcingResult) : bool :=
  negb (nonEmpty filterIndustry)
  || match industry result with
     | Some i =>
         nonEmpty i
         && includes (Js.toLowerCase filterIndustry) (Js.toLowerCase i)
     | None => false
     end.

Definition sdeMatch (result : SourcingResult) : bool :=
  match sde result with
  | Some x => negb (Js.truthy x) || (geMin x && leMax x)
  | None => true
  end.

Definition hasError (result : SourcingResult) : bool :=
  match error result with
  | Some e => nonEmpty e
  | None => false
  end.

Definition keeps (result : SourcingResult) : bool :=
  if hasError result then true
  else scoreMatch result && industryMatch result && sdeMatch result.

Definition applyFilters (results : list SourcingResult)
    : list SourcingResult :=
  List.filter keeps results.

End ApplyFilters.

(** No score below 0. *)
Definition scoresNonneg (results : list SourcingResult) : Prop :=
  Forall (fun r => match overallFitScore r with
                   | Some s => (0 <= s)%Z
                   | None => True
                   end) results.

(** No SDE below 0. *)
Definition sdeNonneg (results : list SourcingResult) : Prop :=
  Forall (fun r => match sde r with
                   | Some x => 0 <= x
                   | None => True
                   end) results.

(** A listing without error and with an SDE other than 0. *)
Definition hasSde (result : SourcingResult) : bool :=
  negb (hasError result)
  && match sde result with
     | Some x => Js.truthy x
     | None => false
     end.

End SourcingFilters.

(* ================================================================== *)
(** * Properties *)

(** ** Normalised EBITDA and SDE (financial analysis hub) *)

Section Waterfall.
Import FinancialAnalysisHub Spec.






Lemma insertSorted_perm x l : Permutation (insertSorted x l) (x :: l).
Proof.
  induction l as [|y l IH]; simpl.
  - reflexivity.
  - destruct (byYear x y <? 0)%Z.
    + reflexivity.
    + rewrite IH. apply perm_swap.
Qed.

Lemma sort_acc_perm l acc :
  Permutation (fold_left (fun a x => insertSorted x a) l acc) (acc ++ l).
Proof.
  revert acc; induction l as [|x l IH]; intro acc; simpl.
  - rewrite app_nil_r. reflexivity.
  - rewrite IH, insertSorted_perm. apply Permutation_middle.
Qed.

Lemma sortByYear_perm l : Permutation (sortByYear l) l.
Proof. unfold sortByYear. apply (sort_acc_perm l []). Qed.


End Waterfall.

(** ** Comparisons of the number model *)

Lemma gt_true (a b : Q) : Js.gt a b = true <-> b < a.
Proof.
  unfold Js.gt. rewrite negb_true_iff, <- not_true_iff_false, Qle_bool_iff.
  split; [apply Qnot_le_lt | apply Qlt_not_le].
Qed.


(** ** Annualisation of the YTD period *)

Section Annualization.
Import FinancialAnalysisHub Spec.

(** The factor is 1 or [12 / m] for a month count [m] from 1 to 11, so the
    division never has a zero divisor. *)
Lemma annualizationFactor_cases (data : FinancialAnalysisData) :
  annualizationFactor data == 1
  \/ ((1 <= ytdMonthsNum data < 12)%Z
      /\ annualizationFactor data == 12 / inject_Z (ytdMonthsNum data)).
Proof.
  unfold annualizationFactor.
  destruct ((0 <? ytdMonthsNum data) && (ytdMonthsNum data <? 12))%Z eqn:E.
  - right. apply andb_true_iff in E as [E1 E2].
    apply Z.ltb_lt in E1, E2. split; [lia | reflexivity].
  - left; reflexivity.
Qed.

(** C9, the claim at a negative month count: "-3" parses to -3, and the
    factor is 1, not 12. *)
Lemma negative_months_not_12 :
  Js.parseInt (ytdMonths (sampleData "-3")) 0 = Some (-3)%Z
  /\ annualizationFactor (sampleData "-3") == 1
  /\ ~ annualizationFactor (sampleData "-3") == 12.
Proof. repeat split; try reflexivity. intro H; discriminate H. Qed.

(** C9, amended.  A month count that parses to 0, or does not parse, is
    taken as 1 and the factor is 12; a negative month count gives the factor
    1; the division [12 / months] is only made for a month count from 1 to
    11.  For the annualised period revenue, COGS and operating expenses are
    multiplied by the factor (so revenue, gross profit and EBITDA are the
    plain ones times the factor), and what is computed from the balance
    sheet alone is unchanged. *)
Theorem annualization_guard (data : FinancialAnalysisData) :
  (Js.parseInt (ytdMonths data) 0 = Some 0%Z \/ Js.parseInt (ytdMonths data) 0 = None ->
   ytdMonthsNum data = 1%Z /\ annualizationFactor data == 12)
  /\ (forall z, Js.parseInt (ytdMonths data) 0 = Some z -> (z < 0)%Z ->
        annualizationFactor data == 1)
  /\ (annualizationFactor data == 1
      \/ ((1 <= ytdMonthsNum data < 12)%Z
          /\ annualizationFactor data == 12 / inject_Z (ytdMonthsNum data)))
  /\ (forall p prev,
        let a := calculateMetrics data p prev true in
        let n := calculateMetrics data p prev false in
        m_revenue a == parseNum (revenue p) * annualizationFactor data
        /\ grossProfit a
           == (parseNum (revenue p) - parseNum (cogs p)) * annualizationFactor data
        /\ ebitda a
           == (parseNum (revenue p) - parseNum (cogs p)
               - parseNum (operatingExpenses p)) * annualizationFactor data
        /\ m_revenue a == m_revenue n * annualizationFactor data
        /\ grossProfit a == grossProfit n * annualizationFactor data
        /\ ebitda a == ebitda n * annualizationFactor data
        /\ netWorkingCapital a = netWorkingCapital n
        /\ totalAssets a = totalAssets n
        /\ currentRatio a = currentRatio n
        /\ quickRatio a = quickRatio n).
Proof.
  split; [|split; [|split]].
  - intros H. unfold annualizationFactor, ytdMonthsNum.
    destruct H as [-> | ->]; simpl; split; reflexivity.
  - intros z Hz Hneg. unfold annualizationFactor, ytdMonthsNum. rewrite Hz.
    unfold Js.or_elseZ.
    destruct (z =? 0)%Z eqn:E0; [apply Z.eqb_eq in E0; lia|].
    destruct (0 <? z)%Z eqn:E1; [apply Z.ltb_lt in E1; lia|].
    reflexivity.
  - apply annualizationFactor_cases.
  - intros p prev a n. unfold a, n, calculateMetrics; cbn -[parseNum].
    repeat split; try reflexivity; ring.
Qed.

(** The amended C9 at "0" and at "-3". *)
Lemma annualization_guard_witness :
  annualizationFactor (sampleData "0") == 12
  /\ annualizationFactor (sampleData "-3") == 1.
Proof.
  split.
  - apply (proj1 (annualization_guard (sampleData "0"))).
    left; reflexivity.
  - apply (proj1 (proj2 (annualization_guard (sampleData "-3"))) (-3)%Z).
    + reflexivity.
    + reflexivity.
Defined.

End Annualization.



(** ** The valuation calculator *)

Section Valuation.
Import ValuationCalculator ValuationSamples.







(** C10.  Two input records that differ at most in the amounts of the standby
    and of the forgivable seller note have, in the simple and in the
    advanced view, stressed or not, the same senior-loan debt service,
    seller-note debt service, total debt service, DSCR and net cash flow to
    owner (and the same enterprise value, liquidity target and DSCR flag). *)
Theorem standby_forgivable_noninterference
    (a b : ValuationInputs) (isAdvancedView isStressed : bool) :
  sameButStandbyForgivable a b ->
  let ca := calculations a isAdvancedView isStressed in
  let cb := calculations b isAdvancedView isStressed in
  sbaDebtService ca = sbaDebtService cb
  /\ sellerNoteDebtService ca = sellerNoteDebtService cb
  /\ totalDebtService ca = totalDebtService cb
  /\ dscr ca = dscr cb
  /\ netCashFlowToOwner ca = netCashFlowToOwner cb
  /\ enterpriseValue ca = enterpriseValue cb
  /\ liquidityTarget ca = liquidityTarget cb
  /\ isDscrLow ca = isDscrLow cb.
Proof.
  destruct a, b. unfold sameButStandbyForgivable. cbn [sde askingMultiple ownerSalary
    closingCosts liquidityMonths loanAmount sbaTerm sbaRate
    amortizingSellerNoteAmount amortizingNoteTerm amortizingNoteRate
    amortizingNoteType stressTestPercent standbyNoteRate standbyNoteTerm
    forgivenessPeriod forgivenessCondition].
  intros H. decompose [and] H; clear H. subst.
  cbv zeta. repeat split; reflexivity.
Qed.

(** C10 at the default inputs against the same inputs with standby and
    forgivable notes of 10 and 999,999; the two records do differ in total
    seller financing, buyer equity and cash to close. *)
Lemma standby_forgivable_noninterference_witness :
  let a := defaultInputs in
  let b := withNotes defaultInputs "10" "999,999" in
  (totalDebtService (calculations a true false)
   = totalDebtService (calculations b true false)
   /\ dscr (calculations a false true) = dscr (calculations b false true))
  /\ ~ totalSellerFinancing (calculations a true false)
       == totalSellerFinancing (calculations b true false)
  /\ ~ buyerEquity (calculations a true false)
       == buyerEquity (calculations b true false)
  /\ ~ totalCashToClose (calculations a true false)
       == totalCashToClose (calculations b true false).
Proof.
  cbv zeta. split; [split|].
  - apply (standby_forgivable_noninterference defaultInputs
             (withNotes defaultInputs "10" "999,999") true false).
    repeat split.
  - apply (standby_forgivable_noninterference defaultInputs
             (withNotes defaultInputs "10" "999,999") false true).
    repeat split.
  - repeat split; intro H; vm_compute in H; discriminate H.
Defined.

End Valuation.


(** ** The year-1 projection *)

Section Projection.
Import FinancialProjectionModeler ProjectionSamples.

Lemma Qpower_succ (a : Q) (k : nat) :
  a ^ Z.of_nat (S k) == a ^ Z.of_nat k * a.
Proof.
  rewrite Nat2Z.inj_succ, <- Z.add_1_r.
  rewrite Qpower_plus' by lia. rewrite Qpower_1_r. reflexivity.
Qed.

Lemma monthsFrom_length a todo i last :
  List.length (monthsFrom a todo i last) = todo.
Proof.
  revert i last; induction todo as [|t IH]; intros i last; simpl.
  - reflexivity.
  - rewrite IH. reflexivity.
Qed.

(** Row [k] of the loop (from 0) is the row of month [i + k], and its
    revenue is the revenue before the loop times [(1+g)^(k+1)]. *)
Lemma monthsFrom_nth a todo i last k :
  (k < todo)%nat ->
  exists row,
    nth_error (monthsFrom a todo i last) k = Some row
    /\ periodName row = label "M" (i + k)
    /\ revenue row == last * (1 + revGrowthMonthly a) ^ Z.of_nat (S k).
Proof.
  revert i last k; induction todo as [|t IH]; intros i last k Hk; [lia|].
  destruct k as [|k]; simpl monthsFrom.
  - eexists; split; [reflexivity|]. split.
    + simpl. rewrite Nat.add_0_r. reflexivity.
    + cbn [monthRow revenue]. rewrite Qpower_1_r. reflexivity.
  - destruct (IH (S i) (revenue (monthRow a i last)) k) as (row & Hn & Hl & Hr); [lia|].
    exists row; split; [exact Hn|]. split.
    + rewrite Hl. f_equal. lia.
    + rewrite Hr. cbn [monthRow revenue].
      rewrite (Qpower_succ _ (S k)). ring.
Qed.

(** C8, the claim at a starting revenue of 1,200 and 10% of monthly growth:
    the revenue of the first month is 110, not 1,200 / 12 = 100. *)
Lemma first_month_is_not_start_over_12 :
  let a := sampleAssumptions "1200" "10" in
  startRev a / 12 == 100
  /\ monthRevenue a 1 == 110
  /\ ~ monthRevenue a 1 == startRev a / 12
  /\ ~ monthRevenue a 1 == startRev a / 12 * (1 + revGrowthMonthly a) ^ (1 - 1).
Proof.
  cbv zeta. repeat split; try (vm_compute; reflexivity);
    intro H; vm_compute in H; discriminate H.
Qed.

(** C8, amended.  Year 1 has twelve rows, M1 to M12.  The loop starts from
    [startingAnnualRevenue / 12] as the revenue of the month before the
    first: the revenue of the first month is that amount times [1 + g],
    the revenue of each later month is the revenue of the month before it
    times [1 + g], and so the revenue of month [m] is
    [(startingAnnualRevenue / 12) * (1+g)^m] for m = 1..12. *)
Theorem year1_revenue (a : Assumptions) :
  List.length (monthlyProjections a) = 12%nat
  /\ monthRevenue a 1 == startRev a / 12 * (1 + revGrowthMonthly a)
  /\ (forall m, (1 <= m < 12)%nat ->
        monthRevenue a (S m) == monthRevenue a m * (1 + revGrowthMonthly a))
  /\ (forall m, (1 <= m <= 12)%nat ->
        exists row,
          nth_error (monthlyProjections a) (m - 1) = Some row
          /\ periodName row = label "M" m
          /\ revenue row
             == startRev a / 12 * (1 + revGrowthMonthly a) ^ Z.of_nat m).
Proof.
  assert (N : forall m, (1 <= m <= 12)%nat ->
            exists row,
              nth_error (monthlyProjections a) (m - 1) = Some row
              /\ periodName row = label "M" m
              /\ revenue row
                 == startRev a / 12 * (1 + revGrowthMonthly a) ^ Z.of_nat m).
  { intros m Hm. unfold monthlyProjections.
    destruct (monthsFrom_nth a 12 1 (startRev a / 12) (m - 1)) as (row & Hn & Hl & Hr);
      [lia|].
    exists row. split; [exact Hn|].
    replace (S (m - 1)) with m in Hr by lia.
    replace (1 + (m - 1))%nat with m in Hl by lia.
    split; assumption. }
  split; [apply monthsFrom_length|]. split; [|split; [|exact N]].
  - destruct (N 1%nat) as (row & Hn & _ & Hr); [lia|].
    unfold monthRevenue. rewrite Hn, Hr. rewrite Qpower_1_r. reflexivity.
  - intros m Hm.
    destruct (N m) as (row & Hn & _ & Hr); [lia|].
    destruct (N (S m)) as (row' & Hn' & _ & Hr'); [lia|].
    unfold monthRevenue. rewrite Hn, Hn', Hr, Hr'.
    rewrite Qpower_succ. ring.
Qed.

(** The amended C8 at month 3 of a starting revenue of 1,200 growing by 10%
    a month: 100 * 1.1^3 = 133.1. *)
Lemma year1_revenue_witness :
  exists row,
    nth_error (monthlyProjections (sampleAssumptions "1200" "10")) 2 = Some row
    /\ periodName row = "M3"
    /\ revenue row == 1331 # 10.
Proof.
  destruct (proj2 (proj2 (proj2 (year1_revenue (sampleAssumptions "1200" "10")))) 3%nat)
    as (row & Hn & Hl & Hr).
  - lia.
  - exists row. split; [exact Hn|]. split; [exact Hl|].
    rewrite Hr. vm_compute. reflexivity.
Defined.

End Projection.


(** ** The numeric parsers *)

Section Parsers.
Import ParseSpec.







Lemma contains_trimStart c s :
  Js.contains c s = false -> Js.contains c (Js.trimStart s) = false.
Proof.
  induction s as [|d s IH]; simpl; [trivial|].
  intro H. apply orb_false_iff in H as [H1 H2].
  destruct (Js.is_space d); [apply IH; exact H2|].
  simpl. rewrite H1, H2. reflexivity.
Qed.

Lemma contains_trimEnd c s :
  Js.contains c s = false -> Js.contains c (Js.trimEnd s) = false.
Proof.
  induction s as [|d s IH]; simpl; [trivial|].
  intro H. apply orb_false_iff in H as [H1 H2]. specialize (IH H2).
  destruct (Js.trimEnd s) as [|e t].
  - destruct (Js.is_space d); simpl; [reflexivity|]. rewrite H1. reflexivity.
  - change (Js.contains c (String d (String e t)))
      with (Ascii.eqb d c || Js.contains c (String e t)).
    rewrite H1, IH. reflexivity.
Qed.









End Parsers.


(** ** The fit scorer *)

Section FitScorer.
Import App FitScore FitSpec.

Lemma credit_adds fit w acc :
  credit fit w acc
  == acc + (if String.eqb fit "yes" then w
            else if String.eqb fit "?" then (3 # 10) * w else 0).
Proof.
  unfold credit. destruct (String.eqb fit "yes"); [reflexivity|].
  destruct (String.eqb fit "?"); ring.
Qed.

Lemma sourcing_scoreRow_adds buyBox acc row :
  SourcingEngine.scoreRow buyBox acc row
  == acc + rowCredit SourcingEngine.criteriaNameOf SourcingEngine.fitOf buyBox row.
Proof.
  unfold SourcingEngine.scoreRow, rowCredit. cbv zeta.
  destruct (4 <=? List.length (columnsOf row))%nat; [|ring].
  destruct (lookupKey _) as [key|]; [|ring].
  destruct (weightOf buyBox key) as [w|]; [|ring].
  apply credit_adds.
Qed.

Lemma dashboard_scoreRow_adds buyBox acc row :
  CentralDashboard.scoreRow buyBox acc row
  == acc + rowCredit CentralDashboard.criteriaNameOf CentralDashboard.fitOf buyBox row.
Proof.
  unfold CentralDashboard.scoreRow, rowCredit. cbv zeta.
  destruct (4 <=? List.length (columnsOf row))%nat; [|ring].
  destruct (lookupKey _) as [key|]; [|ring].
  destruct (weightOf buyBox key) as [w|]; [|ring].
  apply credit_adds.
Qed.

(** A loop that adds the credit of each row ends with the sum of the
    credits. *)
Lemma loop_is_sum (scoreRow : Q -> string -> Q) nameOf fitOf buyBox :
  (forall acc row, scoreRow acc row == acc + rowCredit nameOf fitOf buyBox row) ->
  forall rows acc,
    fold_left scoreRow rows acc == acc + sumCredits nameOf fitOf buyBox rows.
Proof.
  intros H rows; induction rows as [|row rows IH]; intro acc; simpl.
  - ring.
  - rewrite IH, H. ring.
Qed.

Lemma round_comp (p q : Q) : p == q -> Js.round p = Js.round q.
Proof. intro H. unfold Js.round. rewrite H. reflexivity. Qed.

Lemma not_empty_eqb (s : string) : s <> "" -> String.eqb s "" = false.
Proof. intro H. apply String.eqb_neq. exact H. Qed.





(** C4, at a Fit cell in bold tags.  With weights 2 and 3 and the cells
    "<b>Yes</b>" and "No" the dashboard scores 40, as it does for "Yes";
    the copy of the sourcing engine compares "<b>yes</b>" itself with
    "yes" and scores 0. *)
Lemma sourcing_copy_keeps_tags :
  SourcingEngine.fitOf
    (columnsOf "| Geography (Weight: 2) | Houston | <b>Yes</b> | In Texas |")
  = "<b>yes</b>"
  /\ CentralDashboard.fitOf
       (columnsOf "| Geography (Weight: 2) | Houston | <b>Yes</b> | In Texas |")
     = "yes"
  /\ SourcingEngine.calculateOverallFitScore
       (scorecardWith "<b>Yes</b>" "No") (buyBoxWith 2 3) = Some 0%Z
  /\ SourcingEngine.calculateOverallFitScore
       (scorecardWith "Yes" "No") (buyBoxWith 2 3) = Some 40%Z
  /\ CentralDashboard.calculateOverallFitScore
       (scorecardWith "<b>Yes</b>" "No") (buyBoxWith 2 3) = Some 40%Z
  /\ CentralDashboard.calculateOverallFitScore
       (scorecardWith "Yes" "No") (buyBoxWith 2 3) = Some 40%Z.
Proof. repeat split; vm_compute; reflexivity. Qed.

Lemma zero_weights_total buyBox :
  allWeightsZero buyBox -> Qeq_bool (totalPossibleScore buyBox) 0 = true.
Proof.
  intro H. apply Qeq_bool_iff.
  assert (W : forall key w, weightOf buyBox key = Some w -> w == 0) by exact H.
  pose proof (W Kgeography _ eq_refl) as H1.
  pose proof (W KindustryType _ eq_refl) as H2.
  pose proof (W KminSde _ eq_refl) as H3.
  pose proof (W KmaxSde _ eq_refl) as H4.
  pose proof (W KcustomerConcentration _ eq_refl) as H5.
  pose proof (W KminRecurringRevenue _ eq_refl) as H6.
  pose proof (W KgrowthLevers _ eq_refl) as H7.
  pose proof (W KindustryTrends _ eq_refl) as H8.
  pose proof (W KsellerRole _ eq_refl) as H9.
  pose proof (W KteamStrength _ eq_refl) as H10.
  pose proof (W KbusinessModel _ eq_refl) as H11.
  pose proof (W KsystemMessiness _ eq_refl) as H12.
  pose proof (W KmyPrimaryRole _ eq_refl) as H13.
  unfold totalPossibleScore. cbn [fold_left keys weightOf].
  destruct (Js.gt (weight (minSde buyBox)) 0 && Js.gt (weight (maxSde buyBox)) 0)%bool;
    rewrite H1, H2, H3, H4, H5, H6, H7, H8, H9, H10, H11, H12, H13; reflexivity.
Qed.

Lemma buyBoxWith_zero : allWeightsZero (buyBoxWith 0 0).
Proof. intros key w H. destruct key; inversion H; reflexivity. Qed.

(** C5, the claim at the empty scorecard: with every weight 0 both scorers
    answer [null], not 50. *)
Lemma zero_weights_empty_scorecard :
  allWeightsZero (buyBoxWith 0 0)
  /\ SourcingEngine.calculateOverallFitScore "" (buyBoxWith 0 0) = None
  /\ CentralDashboard.calculateOverallFitScore "" (buyBoxWith 0 0) = None
  /\ SourcingEngine.calculateOverallFitScore "" (buyBoxWith 0 0) <> Some 50%Z
  /\ CentralDashboard.calculateOverallFitScore "" (buyBoxWith 0 0) <> Some 50%Z.
Proof.
  split; [exact buyBoxWith_zero|].
  repeat split; try reflexivity; discriminate.
Qed.

(** C5, amended.  For a buy box whose weights are all 0 and a scorecard that
    is not the empty text, both scorers return exactly 50, whatever the
    scorecard says; on the empty text they return [null], whatever the buy
    box. *)
Theorem zero_weights_score_50 (scorecard : string) (buyBox : BuyBoxCriteria) :
  allWeightsZero buyBox ->
  (scorecard <> "" ->
   SourcingEngine.calculateOverallFitScore scorecard buyBox = Some 50%Z
   /\ CentralDashboard.calculateOverallFitScore scorecard buyBox = Some 50%Z)
  /\ SourcingEngine.calculateOverallFitScore "" buyBox = None
  /\ CentralDashboard.calculateOverallFitScore "" buyBox = None.
Proof.
  intros Hz. split; [|split; reflexivity].
  intros Hne. apply not_empty_eqb in Hne. apply zero_weights_total in Hz.
  unfold SourcingEngine.calculateOverallFitScore,
    CentralDashboard.calculateOverallFitScore.
  cbv zeta. rewrite Hne, Hz. split; reflexivity.
Qed.

(** The amended C5 on a scorecard that answers "Yes" twice. *)
Lemma zero_weights_score_50_witness :
  SourcingEngine.calculateOverallFitScore (scorecardWith "Yes" "Yes") (buyBoxWith 0 0)
  = Some 50%Z
  /\ CentralDashboard.calculateOverallFitScore (scorecardWith "Yes" "Yes") (buyBoxWith 0 0)
     = Some 50%Z.
Proof.
  apply (proj1 (zero_weights_score_50 (scorecardWith "Yes" "Yes") (buyBoxWith 0 0)
                  buyBoxWith_zero)).
  discriminate.
Defined.

End FitScorer.


(** ** Printing an integer and reading it back *)

Section Decimal.
Import DecimalText.

Lemma readUint_pos d acc : readUint d (Zpos acc) = Zpos (Pos.of_uint_acc d acc).
Proof.
  revert acc; induction d; intro acc; cbn [readUint Pos.of_uint_acc]; trivial;
    rewrite <- IHd; f_equal; lia.
Qed.

Lemma readUint_0 d : readUint d 0 = Z.of_N (Pos.of_uint d).
Proof.
  induction d; simpl; trivial; apply (readUint_pos d).
Qed.

Lemma read_digits_digit c r acc count d :
  Js.digit_of c = Some d -> (d <? 10)%Z = true ->
  Js.read_digits 10 (String c r) acc count
  = Js.read_digits 10 r (acc * 10 + d)%Z (S count).
Proof. intros H1 H2. cbn [Js.read_digits]. rewrite H1, H2. reflexivity. Qed.

Lemma read_digits_print d rest acc count :
  Js.read_digits 10 (NilEmpty.string_of_uint d ++ rest) acc count
  = Js.read_digits 10 rest (readUint d acc) (count + Decimal.nb_digits d).
Proof.
  revert acc count; induction d; intros acc count;
    cbn [NilEmpty.string_of_uint append readUint Decimal.nb_digits];
    [rewrite Nat.add_0_r; reflexivity| ..];
    (erewrite read_digits_digit; [|reflexivity|reflexivity]);
    rewrite IHd; f_equal; lia.
Qed.

(** A normalised numeral starts with 0 only when it is 0. *)
Lemma unorm_head d :
  match Decimal.unorm d with
  | Decimal.D0 Decimal.Nil => True
  | Decimal.D0 _ => False
  | _ => True
  end.
Proof. induction d; simpl; trivial. Qed.

Lemma to_uint_normal p : Decimal.unorm (Pos.to_uint p) = Pos.to_uint p.
Proof.
  rewrite <- (DecimalPos.Unsigned.to_of (Pos.to_uint p)).
  rewrite DecimalPos.Unsigned.of_to. reflexivity.
Qed.

Lemma no_hex_prefix c s :
  Ascii.eqb c "0" = false -> Js.has_hex_prefix (String c s) = None.
Proof.
  destruct c as [[] [] [] [] [] [] [] []]; try reflexivity.
  intro H; discriminate H.
Qed.

(** [parseInt] on a text that starts with neither whitespace, a sign nor
    a radix prefix. *)
Lemma parseInt_plain s radix :
  radix = 0%Z \/ radix = 10%Z ->
  Js.trimStart s = s -> Js.read_sign s = (false, s) ->
  Js.has_hex_prefix s = None ->
  Js.parseInt s radix
  = match Js.read_digits 10 s 0%Z 0%nat with
    | (_, O, _) => None
    | (v, _, _) => Some v
    end.
Proof.
  intros [-> | ->] H1 H2 H3; unfold Js.parseInt; rewrite H1, H2, H3; reflexivity.
Qed.

(** The text of a positive integer, followed by something that is no digit,
    is read back by [parseInt] as that integer, with or without the
    radix 10. *)
Lemma parseInt_toString (n : Z) (rest : string) (radix : Z) :
  (0 < n)%Z -> stopsDigits rest -> radix = 0%Z \/ radix = 10%Z ->
  Js.parseInt (HubHandlers.toString n ++ rest) radix = Some n.
Proof.
  intros Hn Hrest Hradix. destruct n as [|p|p]; try lia.
  unfold HubHandlers.toString. cbn [Z.to_int NilZero.string_of_int].
  pose proof (DecimalPos.Unsigned.to_uint_nonnil p) as Hnil.
  pose proof (unorm_head (Pos.to_uint p)) as Hhead.
  rewrite to_uint_normal in Hhead.
  pose proof (DecimalPos.Unsigned.to_uint_nonzero p) as Hzero.
  pose proof (DecimalPos.Unsigned.of_to p) as Hval.
  assert (R : Js.read_digits 10 (NilEmpty.string_of_uint (Pos.to_uint p) ++ rest) 0 0
              = (readUint (Pos.to_uint p) 0,
                 (0 + Decimal.nb_digits (Pos.to_uint p))%nat, rest)).
  { rewrite read_digits_print. apply Hrest. }
  assert (V : readUint (Pos.to_uint p) 0 = Zpos p).
  { rewrite readUint_0, Hval. reflexivity. }
  unfold NilZero.string_of_uint.
  destruct (Pos.to_uint p) as [|d|d|d|d|d|d|d|d|d|d]; try congruence;
    try (destruct d; [congruence | contradiction ..]);
    (rewrite parseInt_plain;
     [ rewrite R, V; reflexivity
     | exact Hradix
     | reflexivity
     | reflexivity
     | apply no_hex_prefix; reflexivity ]).
Qed.

End Decimal.


(** ** Editing and ordering the periods *)

Section HubPeriods.
Import FinancialAnalysisHub HubHandlers Spec.

Lemma byYear_known a b x y :
  yearOf a = Some x -> yearOf b = Some y -> byYear a b = (x - y)%Z.
Proof. unfold yearOf, byYear. intros -> ->. reflexivity. Qed.

Lemma insertSorted_sorted x l :
  yearOf x <> None -> Forall (fun p => yearOf p <> None) l ->
  StronglySorted chronological l ->
  StronglySorted chronological (insertSorted x l).
Proof.
  intros Hx Hl Hs. induction l as [|y l IH]; simpl.
  - constructor; constructor.
  - inversion Hl as [|? ? Hy Hl']; subst. inversion Hs as [|? ? Hs' Hall]; subst.
    destruct (yearOf x) as [kx|] eqn:Ex; [|congruence].
    destruct (yearOf y) as [ky|] eqn:Ey; [|congruence].
    rewrite (byYear_known x y kx ky Ex Ey).
    destruct (kx - ky <? 0)%Z eqn:C.
    + apply Z.ltb_lt in C. constructor; [exact Hs|].
      constructor.
      * exists kx, ky. repeat split; trivial; lia.
      * eapply Forall_impl; [|exact Hall].
        intros p (a & b & Ha & Hb & Hab). exists kx, b.
        rewrite Ey in Ha. inversion Ha; subst. repeat split; trivial; lia.
    + apply Z.ltb_ge in C. constructor; [apply IH; assumption|].
      assert (P : Permutation (insertSorted x l) (x :: l)) by apply insertSorted_perm.
      apply (Permutation_Forall (Permutation_sym P)).
      constructor; [|exact Hall].
      exists ky, kx. repeat split; trivial; lia.
Qed.

Lemma sort_acc_sorted l acc :
  Forall (fun p => yearOf p <> None) l ->
  Forall (fun p => yearOf p <> None) acc ->
  StronglySorted chronological acc ->
  StronglySorted chronological (fold_left (fun a x => insertSorted x a) l acc).
Proof.
  revert acc; induction l as [|x l IH]; intros acc Hl Hacc Hs; simpl; [exact Hs|].
  inversion Hl; subst. apply IH; trivial.
  - apply (Permutation_Forall (Permutation_sym (insertSorted_perm x acc))).
    constructor; assumption.
  - apply insertSorted_sorted; assumption.
Qed.

Lemma ytdAnnualized_year data currentYear :
  (0 < currentYear)%Z -> yearOf (ytdAnnualizedPeriod data currentYear) = Some currentYear.
Proof.
  intro H. unfold yearOf, ytdAnnualizedPeriod; cbn [periodName].
  apply (parseInt_toString currentYear " (Ann.)" 0 H); [|left; reflexivity].
  intros v k; reflexivity.
Qed.

(** X1.  When the name of every period starts with a year, the periods are
    taken in chronological order for the calculations: each is of a year
    not later than those after it, the annualised YTD period standing at
    the current year; the list holds the periods and that one, nothing
    else, and there is one row of results for each. *)
Theorem calculation_order_chronological (data : FinancialAnalysisData) (currentYear : Z) :
  (0 < currentYear)%Z ->
  Forall (fun p => yearOf p <> None) (periods data) ->
  StronglySorted chronological (allPeriodsForCalc data currentYear)
  /\ yearOf (ytdAnnualizedPeriod data currentYear) = Some currentYear
  /\ Permutation (allPeriodsForCalc data currentYear)
                 (periods data ++ [ytdAnnualizedPeriod data currentYear])
  /\ List.length (calculations (calculationResults data currentYear))
     = S (List.length (periods data)).
Proof.
  intros Hy Hp. pose proof (ytdAnnualized_year data currentYear Hy) as E.
  split; [|split; [exact E|split]].
  - unfold allPeriodsForCalc, sortByYear. apply sort_acc_sorted.
    + apply Forall_app; split; [exact Hp|]. constructor; [congruence|constructor].
    + constructor.
    + constructor.
  - apply sortByYear_perm.
  - cbn [calculationResults calculations]. unfold calculationsOf.
    assert (L : forall prev l, List.length (calculationsFrom data prev l) = List.length l).
    { intros prev l; revert prev; induction l; intro prev; simpl; [|rewrite IHl]; reflexivity. }
    rewrite L. unfold allPeriodsForCalc.
    rewrite (Permutation_length (sortByYear_perm _)).
    rewrite length_app. simpl. lia.
Qed.

(** X1 on the sample data in 2024: the order is 2022, 2023, 2024 (Ann.). *)
Lemma calculation_order_chronological_witness :
  StronglySorted chronological (allPeriodsForCalc (sampleData "6") 2024)
  /\ map periodName (allPeriodsForCalc (sampleData "6") 2024)
     = ["2022"; "2023"; "2024 (Ann.)"].
Proof.
  split; [|reflexivity].
  apply (calculation_order_chronological (sampleData "6") 2024).
  - reflexivity.
  - repeat constructor; discriminate.
Defined.

End HubPeriods.


Section HubEditing.
Import FinancialAnalysisHub HubHandlers Spec ParseSpec.






Lemma filter_other_ids (l : list FinancialPeriod) (x : string) :
  NoDup (map id l) ->
  (List.length l <= S (List.length
                         (List.filter (fun p => negb (String.eqb (id p) x)) l)))%nat.
Proof.
  induction l as [|p l IH]; intro H; simpl; [lia|].
  inversion H as [|? ? Hn Hd]; subst.
  destruct (String.eqb (id p) x) eqn:E; simpl.
  - apply String.eqb_eq in E.
    assert (F : List.filter (fun p => negb (String.eqb (id p) x)) l = l).
    { clear IH H Hd. induction l as [|q l IHl]; simpl; [reflexivity|].
      destruct (String.eqb (id q) x) eqn:Eq.
      - apply String.eqb_eq in Eq. exfalso. apply Hn. left. congruence.
      - simpl. rewrite IHl; [reflexivity|]. intro Hin. apply Hn. right. exact Hin. }
    rewrite F. lia.
  - specialize (IH Hd). lia.
Qed.

(** X3.  Removing a period never removes the last one: with one period or
    none nothing is removed, and with identifiers that are all different
    at most one period goes.  What stays are the periods of another
    identifier, in their order. *)
Theorem remove_period_keeps_one (data : FinancialAnalysisData) (periodId : string) :
  NoDup (map id (periods data)) ->
  periods data <> [] ->
  let data' := handleRemovePeriod data periodId in
  periods data' <> []
  /\ (List.length (periods data) <= S (List.length (periods data')))%nat
  /\ ((List.length (periods data) <= 1)%nat -> data' = data)
  /\ ((2 <= List.length (periods data))%nat ->
      periods data'
      = List.filter (fun p => negb (String.eqb (id p) periodId)) (periods data))
  /\ ytdActuals data' = ytdActuals data.
Proof.
  intros Hd Hne data'. unfold data', handleRemovePeriod.
  pose proof (filter_other_ids (periods data) periodId Hd) as F.
  destruct (List.length (periods data) <=? 1)%nat eqn:E.
  - apply Nat.leb_le in E. split; [exact Hne|]. split; [lia|].
    split; [reflexivity|]. split; [intro; lia|reflexivity].
  - apply Nat.leb_gt in E. cbn [withPeriods periods ytdActuals].
    split; [intro H; rewrite H in F; simpl in F; lia|].
    split; [exact F|]. split; [intro; lia|]. split; reflexivity.
Qed.

(** X3 on the sample data: removing 2023 leaves 2022, and then removing
    2022 leaves it there. *)
Lemma remove_period_keeps_one_witness :
  map id (periods (handleRemovePeriod (sampleData "6") "2023")) = ["2022"]
  /\ periods (handleRemovePeriod (handleRemovePeriod (sampleData "6") "2023") "2022")
     <> [].
Proof.
  split; [reflexivity|].
  apply (remove_period_keeps_one (handleRemovePeriod (sampleData "6") "2023") "2022").
  - repeat constructor. intros [].
  - discriminate.
Defined.






End HubEditing.


(** ** Ratios, the working-capital peg and full-year data *)

Section HubRatios.
Import FinancialAnalysisHub HubHandlers Spec.

Lemma truthy_comp (a b : Q) : a == b -> Js.truthy a = Js.truthy b.
Proof.
  intro H. unfold Js.truthy. f_equal.
  destruct (Qeq_bool a 0) eqn:Ea, (Qeq_bool b 0) eqn:Eb; trivial.
  - apply Qeq_bool_iff in Ea. rewrite H in Ea. apply Qeq_bool_iff in Ea. congruence.
  - apply Qeq_bool_iff in Eb. rewrite <- H in Eb. apply Qeq_bool_iff in Eb. congruence.
Qed.



Lemma sum_loop_is_sumQ (f : Metrics -> Q) (l : list Metrics) (a : Q) :
  fold_left (fun sum c => sum + f c) l a == a + sumQ (map f l).
Proof.
  revert a; induction l as [|c l IH]; intro a; simpl.
  - ring.
  - rewrite IH. ring.
Qed.

Lemma sumQ_perm (l l' : list Q) : Permutation l l' -> sumQ l == sumQ l'.
Proof.
  induction 1; simpl.
  - reflexivity.
  - rewrite IHPermutation. reflexivity.
  - ring.
  - etransitivity; eassumption.
Qed.

Lemma sumQ_app (l l' : list Q) : sumQ (l ++ l') == sumQ l + sumQ l'.
Proof. induction l as [|x l IH]; simpl; [ring|rewrite IH; ring]. Qed.

Lemma nwc_of_calculations data prev l :
  map netWorkingCapital (calculationsFrom data prev l) = map nwcOf l.
Proof.
  revert prev; induction l as [|p l IH]; intro prev; simpl; [reflexivity|].
  rewrite IH. reflexivity.
Qed.

(** X5.  The working-capital peg is the mean of the net working capital of
    the periods and of the YTD actuals, each read from its own balance
    sheet: it depends neither on the order of the periods, nor on the
    months of the YTD period, nor on the current year, and the list it
    averages is never empty. *)
Theorem nwc_peg_is_mean (data : FinancialAnalysisData) (currentYear : Z) :
  averageNWC (calculationResults data currentYear)
  == (sumQ (map nwcOf (periods data)) + nwcOf (ytdActuals data))
     / inject_Z (Z.of_nat (S (List.length (periods data)))).
Proof.
  cbn [calculationResults averageNWC]. unfold calculationsOf.
  set (sorted := allPeriodsForCalc data currentYear).
  assert (P : Permutation sorted (periods data ++ [ytdAnnualizedPeriod data currentYear]))
    by apply sortByYear_perm.
  assert (L : List.length (calculationsFrom data None sorted)
              = S (List.length (periods data))).
  { rewrite <- (length_map netWorkingCapital), nwc_of_calculations, length_map.
    rewrite (Permutation_length P), length_app. simpl. lia. }
  destruct (calculationsFrom data None sorted) as [|c cs] eqn:E; [discriminate L|].
  rewrite L, sum_loop_is_sumQ, <- E, nwc_of_calculations.
  rewrite (sumQ_perm _ _ (Permutation_map nwcOf P)), map_app, sumQ_app.
  simpl. unfold Qdiv. change (nwcOf (ytdAnnualizedPeriod data currentYear))
    with (nwcOf (ytdActuals data)). ring.
Qed.



Lemma sameMetrics_factor_one data p prev :
  annualizationFactor data == 1 ->
  sameMetrics (calculateMetrics data p prev true) (calculateMetrics data p prev false).
Proof.
  intro F. unfold sameMetrics, calculateMetrics.
  cbn [m_id m_periodName m_revenue grossProfit ebitda netIncome normalizedEbitda
       normalizedSde netWorkingCapital totalAssets revenueGrowth grossMargin
       ebitdaMargin netMargin currentRatio quickRatio dso dpo].
  assert (R : parseNum (revenue p) * annualizationFactor data == parseNum (revenue p))
    by (rewrite F; ring).
  assert (C : parseNum (cogs p) * annualizationFactor data == parseNum (cogs p))
    by (rewrite F; ring).
  assert (O : parseNum (operatingExpenses p) * annualizationFactor data
              == parseNum (operatingExpenses p)) by (rewrite F; ring).
  rewrite (truthy_comp _ _ R), (truthy_comp _ _ C).
  repeat split; try reflexivity;
    repeat match goal with
           | |- context [if ?b then _ else _] => destruct b
           end;
    rewrite ?R, ?C, ?O; reflexivity.
Qed.

(** X7.  With a month count that is not from 1 to 11 (12 or more, in
    particular) the annualised YTD period has the numbers of the YTD
    actuals themselves: annualising full-year data changes nothing. *)
Theorem full_year_is_not_scaled (data : FinancialAnalysisData) (p : FinancialPeriod)
    (prev : option FinancialPeriod) :
  ~ (1 <= ytdMonthsNum data < 12)%Z ->
  annualizationFactor data = 1
  /\ sameMetrics (calculateMetrics data p prev true) (calculateMetrics data p prev false).
Proof.
  intro H.
  assert (F : annualizationFactor data = 1).
  { unfold annualizationFactor.
    destruct ((0 <? ytdMonthsNum data) && (ytdMonthsNum data <? 12))%Z eqn:E;
      [|reflexivity].
    apply andb_true_iff in E as [E1 E2]. apply Z.ltb_lt in E1, E2. lia. }
  split; [exact F|]. apply sameMetrics_factor_one. rewrite F. reflexivity.
Qed.

(** X7 at 12 months. *)
Lemma full_year_is_not_scaled_witness :
  sameMetrics
    (calculateMetrics (sampleData "12") (ytdActuals (sampleData "12")) None true)
    (calculateMetrics (sampleData "12") (ytdActuals (sampleData "12")) None false).
Proof.
  apply (full_year_is_not_scaled (sampleData "12")).
  vm_compute. intros [_ H]. discriminate H.
Defined.

End HubRatios.


(** ** More on the valuation calculator *)

Section ValuationMore.
Import ValuationCalculator ValuationSamples ValuationSpec.





End ValuationMore.


Section ValuationDebt.
Import ValuationCalculator ValuationSamples ValuationSpec.









End ValuationDebt.


Section ValuationStress.
Import ValuationCalculator ValuationSamples ValuationSpec.



(** X13.  In the simple view the terms, the rates and the repayment type of
    the loans have no part: two input records that agree on the amounts,
    the multiple, the salary, the closing costs, the liquidity months and
    the stress percentage give the same results throughout. *)
Theorem simple_view_ignores_terms (a b : ValuationInputs) (isStressed : bool) :
  sameButTerms a b ->
  calculations a false isStressed = calculations b false isStressed.
Proof.
  destruct a, b. unfold sameButTerms.
  cbn [sde askingMultiple ownerSalary closingCosts liquidityMonths loanAmount
       amortizingSellerNoteAmount standbySellerNoteAmount
       forgivableSellerNoteAmount stressTestPercent].
  intro H. decompose [and] H; clear H. subst. reflexivity.
Qed.

(** X13 on the default inputs against a loan over 25 years at 4% with an
    amortising note; in the advanced view the two do differ. *)
Lemma simple_view_ignores_terms_witness :
  calculations defaultInputs false false
  = calculations (withTerms defaultInputs "25" "4" "7" "3.5" amortizing) false false
  /\ ~ totalDebtService (calculations defaultInputs true false)
       == totalDebtService
            (calculations (withTerms defaultInputs "25" "4" "7" "3.5" amortizing)
                          true false).
Proof.
  split.
  - apply simple_view_ignores_terms. repeat split.
  - intro H. vm_compute in H. discriminate H.
Defined.

End ValuationStress.


(** ** More on the projection *)

Section ProjectionMore.
Import FinancialProjectionModeler ProjectionSamples ProjectionSpec.

Lemma total_is_sum (f : Row -> Q) (l : list Row) (acc : Row) :
  additive f -> f (fold_left addRow l acc) == f acc + sumOf f l.
Proof.
  intro A. revert acc; induction l as [|m l IH]; intro acc; simpl.
  - ring.
  - rewrite IH, A. ring.
Qed.




Lemma sumOf_nonneg (f : Row -> Q) (l : list Row) :
  Forall (fun row => 0 <= f row) l -> 0 <= sumOf f l.
Proof.
  induction 1 as [|row l H _ IH]; simpl; [apply Qle_refl|].
  rewrite <- (Qplus_0_r 0). apply Qplus_le_compat; assumption.
Qed.

Lemma monthsFrom_Forall a (P : Row -> Prop) todo i last :
  (forall j l, P (monthRow a j l)) -> Forall P (monthsFrom a todo i last).
Proof.
  intro H. revert i last; induction todo as [|t IH]; intros i last; simpl;
    constructor; [apply H|apply IH].
Qed.

(** X14.  The first annual row is the sum of the twelve months, column by
    column; the annual rows are "Y1 Total", "Y2" and "Y3", and the revenue
    of each later year is the revenue of the year before times one plus
    the growth of that year. *)
Theorem annual_rows (a : Assumptions) :
  exists y1 y2 y3,
    annualProjections a = [y1; y2; y3]
    /\ periodName y1 = "Y1 Total" /\ periodName y2 = "Y2" /\ periodName y3 = "Y3"
    /\ revenue y1 == sumOf revenue (monthlyProjections a)
    /\ cogs y1 == sumOf cogs (monthlyProjections a)
    /\ opEx y1 == sumOf opEx (monthlyProjections a)
    /\ taxes y1 == sumOf taxes (monthlyProjections a)
    /\ ebitda y1 == sumOf ebitda (monthlyProjections a)
    /\ netIncome y1 == sumOf netIncome (monthlyProjections a)
    /\ fcf y1 == sumOf fcf (monthlyProjections a)
    /\ revenue y2 = revenue y1 * (1 + revGrowthY2 a)
    /\ revenue y3 = revenue y2 * (1 + revGrowthY3 a).
Proof.
  exists (year1Total a), (yearRow a 2 (year1Total a)),
         (yearRow a 3 (yearRow a 2 (year1Total a))).
  split; [reflexivity|].
  assert (N : periodName (year1Total a) = "Y1 Total").
  { unfold year1Total.
    assert (K : forall l acc, periodName (fold_left addRow l acc) = periodName acc).
    { induction l as [|m l IH]; intro acc; simpl; [reflexivity|]. rewrite IH. reflexivity. }
    rewrite K. reflexivity. }
  split; [exact N|]. split; [reflexivity|]. split; [reflexivity|].
  assert (T : forall f, additive f ->
              f (year1Total a) == f emptyTotal + sumOf f (monthlyProjections a)).
  { intros f A. apply total_is_sum. exact A. }
  repeat split;
    try (rewrite T by (intros x y; reflexivity);
         cbn [emptyTotal revenue cogs opEx taxes ebitda netIncome fcf]; ring).
Qed.



End ProjectionMore.


Section ProjectionMargins.
Import FinancialProjectionModeler ProjectionSamples ProjectionSpec.



(** X17.  With a tax rate that is not negative no row of the table has
    negative taxes; and a month or a later year whose EBITDA does not
    exceed its debt service pays no tax at all, its net income being
    EBITDA less the debt service. *)
Theorem taxes_only_on_profit (a : Assumptions) :
  0 <= taxRate a ->
  Forall (fun row => 0 <= taxes row) (allRows a)
  /\ Forall (fun row =>
               ebitda row <= debtServiceYear a / 12 ->
               taxes row = 0 /\ netIncome row == ebitda row - debtServiceYear a / 12)
            (monthlyProjections a)
  /\ (forall i lastYear,
        let row := yearRow a i lastYear in
        ebitda row <= debtServiceYear a ->
        taxes row = 0 /\ netIncome row == ebitda row - debtServiceYear a).
Proof.
  intro Ht.
  assert (M : Forall (fun row => 0 <= taxes row) (monthlyProjections a)).
  { apply monthsFrom_Forall. intros j l. cbn [monthRow taxes].
    match goal with |- context [Js.gt ?e 0] => destruct (Js.gt e 0) eqn:G end;
      [|apply Qle_refl].
    apply gt_true in G. apply Qmult_le_0_compat; [apply Qlt_le_weak, G|exact Ht]. }
  assert (Y : forall i lastYear, 0 <= taxes (yearRow a i lastYear)).
  { intros i lastYear. cbn [yearRow taxes].
    match goal with |- context [Js.gt ?e 0] => destruct (Js.gt e 0) eqn:G end;
      [|apply Qle_refl].
    apply gt_true in G. apply Qmult_le_0_compat; [apply Qlt_le_weak, G|exact Ht]. }
  split; [|split].
  - unfold allRows. apply Forall_app. split; [exact M|].
    unfold annualProjections. cbv zeta. repeat constructor; try apply Y.
    unfold year1Total. rewrite total_is_sum by (intros x y; reflexivity).
    cbn [emptyTotal taxes]. rewrite Qplus_0_l. apply sumOf_nonneg, M.
  - apply monthsFrom_Forall. intros j l. cbn [monthRow taxes netIncome ebitda].
    intro H.
    match goal with |- context [Js.gt ?e 0] => destruct (Js.gt e 0) eqn:G end.
    + apply gt_true in G. exfalso. lra.
    + split; [reflexivity|ring].
  - intros i lastYear row H. unfold row in *. cbn [yearRow taxes netIncome ebitda] in *.
    match goal with |- context [Js.gt ?e 0] => destruct (Js.gt e 0) eqn:G end.
    + apply gt_true in G. exfalso. lra.
    + split; [reflexivity|ring].
Qed.

End ProjectionMargins.


Section ProjectionGrowth.
Import FinancialProjectionModeler ProjectionSamples ProjectionSpec.

(** X17 on the default assumptions, with a tax rate of 25%. *)
Lemma taxes_only_on_profit_witness :
  Forall (fun row => 0 <= taxes row) (allRows (sampleAssumptions "2500000" "1.0")).
Proof.
  assert (H : 0 <= taxRate (sampleAssumptions "2500000" "1.0"))
    by (vm_compute; discriminate).
  exact (proj1 (taxes_only_on_profit (sampleAssumptions "2500000" "1.0") H)).
Defined.






End ProjectionGrowth.


(** ** More on the fit scorer *)

Section FitRange.
Import App FitScore FitSpec FitBounds.

Lemma rowCredit_bounds nameOf fitOf buyBox row :
  nonnegWeights buyBox ->
  0 <= rowCredit nameOf fitOf buyBox row
  /\ rowCredit nameOf fitOf buyBox row
     <= match rowKey nameOf row with
        | Some key => weightOr0 buyBox key
        | None => 0
        end.
Proof.
  intro Hw. unfold rowCredit, rowKey, weightOr0. cbv zeta.
  destruct (4 <=? List.length (columnsOf row))%nat; [|split; apply Qle_refl].
  destruct (lookupKey _) as [key|]; [|split; apply Qle_refl].
  destruct (weightOf buyBox key) as [w|] eqn:E; [|split; apply Qle_refl].
  pose proof (Hw key w E) as H.
  destruct (String.eqb _ "yes"); [split; lra|].
  destruct (String.eqb _ "?"); split; lra.
Qed.

Lemma sumCredits_bounds nameOf fitOf buyBox rows :
  nonnegWeights buyBox ->
  0 <= sumCredits nameOf fitOf buyBox rows
  /\ sumCredits nameOf fitOf buyBox rows <= sumWeights buyBox (keysOf nameOf rows).
Proof.
  intro Hw. induction rows as [|row rows [IH1 IH2]]; simpl.
  - split; apply Qle_refl.
  - destruct (rowCredit_bounds nameOf fitOf buyBox row Hw) as [H1 H2].
    destruct (rowKey nameOf row); simpl; split; lra.
Qed.

Lemma lookupKey_scored name key : lookupKey name = Some key -> In key scoredKeys.
Proof.
  unfold lookupKey, criteriaNameToKeyMap. cbn [find fst].
  repeat match goal with
         | |- context [String.eqb ?a name] => destruct (String.eqb a name)
         end;
    intro H; inversion H; subst; cbn; tauto.
Qed.

Lemma keysOf_scored nameOf rows : incl (keysOf nameOf rows) scoredKeys.
Proof.
  induction rows as [|row rows IH]; simpl; [intros k []|].
  destruct (rowKey nameOf row) as [key|] eqn:E; [|exact IH].
  intros k [<- | Hin]; [|apply IH, Hin].
  unfold rowKey in E. cbv zeta in E.
  destruct (4 <=? List.length (columnsOf row))%nat; [|discriminate].
  eapply lookupKey_scored, E.
Qed.

Lemma sumWeights_app buyBox l l' :
  sumWeights buyBox (l ++ l') == sumWeights buyBox l + sumWeights buyBox l'.
Proof. induction l as [|k l IH]; simpl; [ring|rewrite IH; ring]. Qed.

Lemma weightOr0_nonneg buyBox key : nonnegWeights buyBox -> 0 <= weightOr0 buyBox key.
Proof.
  intro Hw. unfold weightOr0. destruct (weightOf buyBox key) eqn:E;
    [apply (Hw key), E|apply Qle_refl].
Qed.

(** Weights of different keys out of a list add up to at most the weights
    of the list. *)
Lemma sumWeights_incl buyBox (l u : list Key) :
  nonnegWeights buyBox -> NoDup l -> incl l u ->
  sumWeights buyBox l <= sumWeights buyBox u.
Proof.
  intro Hw. revert u; induction l as [|k l IH]; intros u Hd Hi.
  - simpl. clear Hi. induction u as [|x u IHu]; simpl; [apply Qle_refl|].
    pose proof (weightOr0_nonneg buyBox x Hw). lra.
  - inversion Hd as [|? ? Hn Hd']; subst.
    destruct (in_split k u (Hi k (or_introl eq_refl))) as (u1 & u2 & ->).
    assert (Hi' : incl l (u1 ++ u2)%list).
    { intros x Hx. specialize (Hi x (or_intror Hx)).
      apply in_app_or in Hi. apply in_or_app.
      destruct Hi as [H|[H|H]]; [left; exact H| |right; exact H].
      subst x. contradiction. }
    specialize (IH (u1 ++ u2)%list Hd' Hi').
    rewrite sumWeights_app in IH. rewrite sumWeights_app. simpl. lra.
Qed.

Lemma total_covers_scored buyBox :
  nonnegWeights buyBox -> sumWeights buyBox scoredKeys <= totalPossibleScore buyBox.
Proof.
  intro Hw. unfold totalPossibleScore, sumWeights, scoredKeys, weightOr0.
  cbn [fold_left fold_right keys weightOf].
  pose proof (Hw KmaxSde _ eq_refl) as H. cbn [weightOf] in H.
  destruct (Js.gt (weight (minSde buyBox)) 0 && Js.gt (weight (maxSde buyBox)) 0)%bool;
    lra.
Qed.

Lemma round_range (x : Q) : 0 <= x -> x <= 100 -> (0 <= Js.round x <= 100)%Z.
Proof.
  intros H0 H1. unfold Js.round. split.
  - change 0%Z with (Qfloor 0). apply Qfloor_resp_le. lra.
  - change 100%Z with (Qfloor (100 + (1 # 2))). apply Qfloor_resp_le. lra.
Qed.

Lemma sourcing_score_value scorecard buyBox :
  scorecard <> "" -> ~ totalPossibleScore buyBox == 0 ->
  SourcingEngine.calculateOverallFitScore scorecard buyBox
  = Some (Js.round (sumCredits SourcingEngine.criteriaNameOf SourcingEngine.fitOf
                               buyBox (rowsOf scorecard)
                    / totalPossibleScore buyBox * 100)).
Proof.
  intros Hne Hz. unfold SourcingEngine.calculateOverallFitScore. cbv zeta.
  rewrite (not_empty_eqb _ Hne).
  destruct (Qeq_bool (totalPossibleScore buyBox) 0) eqn:E;
    [apply Qeq_bool_iff in E; contradiction|].
  f_equal. apply round_comp.
  rewrite (loop_is_sum _ _ _ _ (sourcing_scoreRow_adds buyBox)). field. exact Hz.
Qed.

Lemma dashboard_score_value scorecard buyBox :
  scorecard <> "" -> ~ totalPossibleScore buyBox == 0 ->
  CentralDashboard.calculateOverallFitScore scorecard buyBox
  = Some (Js.round (sumCredits CentralDashboard.criteriaNameOf CentralDashboard.fitOf
                               buyBox (rowsOf scorecard)
                    / totalPossibleScore buyBox * 100)).
Proof.
  intros Hne Hz. unfold CentralDashboard.calculateOverallFitScore. cbv zeta.
  rewrite (not_empty_eqb _ Hne).
  destruct (Qeq_bool (totalPossibleScore buyBox) 0) eqn:E;
    [apply Qeq_bool_iff in E; contradiction|].
  f_equal. apply round_comp.
  rewrite (loop_is_sum _ _ _ _ (dashboard_scoreRow_adds buyBox)). field. exact Hz.
Qed.

Lemma score_in_range nameOf fitOf buyBox rows :
  nonnegWeights buyBox -> 0 < totalPossibleScore buyBox ->
  NoDup (keysOf nameOf rows) ->
  (0 <= Js.round (sumCredits nameOf fitOf buyBox rows
                  / totalPossibleScore buyBox * 100) <= 100)%Z.
Proof.
  intros Hw Ht Hd.
  destruct (sumCredits_bounds nameOf fitOf buyBox rows Hw) as [H0 H1].
  pose proof (sumWeights_incl buyBox _ scoredKeys Hw Hd (keysOf_scored nameOf rows)) as H2.
  pose proof (total_covers_scored buyBox Hw) as H3.
  set (s := sumCredits nameOf fitOf buyBox rows) in *.
  set (t := totalPossibleScore buyBox) in *.
  assert (Q0 : 0 <= s / t) by (apply Qle_shift_div_l; [exact Ht|lra]).
  assert (Q1 : s / t <= 1) by (apply Qle_shift_div_r; [exact Ht|lra]).
  apply round_range; lra.
Qed.

(** X20.  With weights that are not negative and a positive total, a
    scorecard that has each criterion in at most one data row gets a score
    from 0 to 100, in either copy of the scorer; and whatever the rows, the
    score is not negative. *)
Theorem fit_score_range (scorecard : string) (buyBox : BuyBoxCriteria) :
  nonnegWeights buyBox -> 0 < totalPossibleScore buyBox -> scorecard <> "" ->
  (exists s, SourcingEngine.calculateOverallFitScore scorecard buyBox = Some s
             /\ (0 <= s)%Z
             /\ (NoDup (keysOf SourcingEngine.criteriaNameOf (rowsOf scorecard)) ->
                 (s <= 100)%Z))
  /\ (exists s, CentralDashboard.calculateOverallFitScore scorecard buyBox = Some s
                /\ (0 <= s)%Z
                /\ (NoDup (keysOf CentralDashboard.criteriaNameOf (rowsOf scorecard)) ->
                    (s <= 100)%Z)).
Proof.
  intros Hw Ht Hne.
  assert (Hz : ~ totalPossibleScore buyBox == 0)
    by (intro E; rewrite E in Ht; discriminate Ht).
  assert (N : forall nameOf fitOf rows,
             (0 <= Js.round (sumCredits nameOf fitOf buyBox rows
                             / totalPossibleScore buyBox * 100))%Z).
  { intros nameOf fitOf rows.
    destruct (sumCredits_bounds nameOf fitOf buyBox rows Hw) as [H0 _].
    unfold Js.round. change 0%Z with (Qfloor 0). apply Qfloor_resp_le.
    assert (0 <= sumCredits nameOf fitOf buyBox rows / totalPossibleScore buyBox)
      by (apply Qle_shift_div_l; [exact Ht|lra]).
    lra. }
  split.
  - eexists. split; [apply sourcing_score_value; assumption|].
    split; [apply N|]. intro Hd. apply score_in_range; assumption.
  - eexists. split; [apply dashboard_score_value; assumption|].
    split; [apply N|]. intro Hd. apply score_in_range; assumption.
Qed.

(** X20 on the default buy box and a scorecard of two rows. *)
Lemma fit_score_range_witness :
  exists s, CentralDashboard.calculateOverallFitScore
              (scorecardWith "Yes" "?") defaultBuyBoxCriteria = Some s
            /\ (0 <= s <= 100)%Z.
Proof.
  destruct (fit_score_range (scorecardWith "Yes" "?") defaultBuyBoxCriteria)
    as (_ & s & E & H0 & H1).
  - intros key w H. destruct key; inversion H; subst; vm_compute; discriminate.
  - reflexivity.
  - discriminate.
  - exists s. split; [exact E|]. split; [exact H0|].
    apply H1. vm_compute. repeat constructor; simpl; intuition discriminate.
Defined.

End FitRange.


Section FitRows.
Import App FitScore FitSpec FitBounds FitText.








Lemma contains_split c sep s :
  Js.contains c s = false ->
  Forall (fun x => Js.contains c x = false) (Js.split sep s).
Proof.
  induction s as [|d s IH]; simpl.
  - intros _. repeat constructor.
  - intro H. apply orb_false_iff in H as [H1 H2]. specialize (IH H2).
    destruct (Ascii.eqb d sep).
    + constructor; [reflexivity|exact IH].
    + destruct (Js.split sep s) as [|h t]; [repeat constructor; simpl; rewrite H1; reflexivity|].
      inversion IH; subst. constructor; [|assumption].
      simpl. rewrite H1. assumption.
Qed.

Lemma contains_before c sep s :
  Js.contains c s = false -> Js.contains c (Js.before sep s) = false.
Proof.
  induction s as [|d s IH].
  - intros _. destruct sep; reflexivity.
  - intro H. cbn [Js.contains] in H. apply orb_false_iff in H as [H1 H2].
    change (Js.before sep (String d s))
      with (if String.prefix sep (String d s) then ""
            else String d (Js.before sep s)).
    destruct (String.prefix sep (String d s)); [reflexivity|].
    cbn [Js.contains]. rewrite H1. apply IH, H2.
Qed.

Lemma lower_is_lt d : Ascii.eqb (Js.lower d) "<" = Ascii.eqb d "<".
Proof. destruct d as [[] [] [] [] [] [] [] []]; reflexivity. Qed.

Lemma contains_lt_lower s :
  Js.contains "<" s = false -> Js.contains "<" (Js.toLowerCase s) = false.
Proof.
  induction s as [|d s IH]; simpl; [trivial|].
  intro H. apply orb_false_iff in H as [H1 H2].
  rewrite lower_is_lt, H1. apply IH, H2.
Qed.

Lemma contains_nth c (l : list string) n :
  Forall (fun x => Js.contains c x = false) l -> Js.contains c (nth n l "") = false.
Proof.
  intro H. revert n; induction H as [|x l Hx _ IH]; intro n; destruct n; simpl; trivial.
Qed.

Lemma strip_tags_plain s : Js.contains "<" s = false -> Js.strip_tags s = s.
Proof.
  unfold Js.strip_tags. induction s as [|d s IH]; simpl; [reflexivity|].
  intro H. apply orb_false_iff in H as [H1 H2]. rewrite H1. simpl.
  rewrite (IH H2). reflexivity.
Qed.

Lemma remove_bold_plain s : Js.contains "*" s = false -> Js.remove_bold s = s.
Proof.
  induction s as [|d s IH]; [reflexivity|].
  intro H. simpl in H. apply orb_false_iff in H as [H1 H2].
  assert (E : Js.remove_bold (String d s) = String d (Js.remove_bold s)).
  { destruct d as [[] [] [] [] [] [] [] []]; try reflexivity. discriminate H1. }
  rewrite E, (IH H2). reflexivity.
Qed.

Lemma columns_plain c row :
  Js.contains c row = false ->
  Forall (fun x => Js.contains c x = false) (columnsOf row).
Proof.
  intro H. unfold columnsOf. apply Forall_map.
  eapply Forall_impl; [|apply contains_split, H].
  intros x Hx. apply contains_trimEnd, contains_trimStart, Hx.
Qed.

Lemma scoreRow_agree buyBox acc row :
  plainText row ->
  SourcingEngine.scoreRow buyBox acc row = CentralDashboard.scoreRow buyBox acc row.
Proof.
  intros [Hlt Hst]. unfold SourcingEngine.scoreRow, CentralDashboard.scoreRow.
  cbv zeta.
  assert (N : CentralDashboard.criteriaNameOf (columnsOf row)
              = SourcingEngine.criteriaNameOf (columnsOf row)).
  { unfold CentralDashboard.criteriaNameOf, SourcingEngine.criteriaNameOf.
    apply remove_bold_plain, contains_trimEnd, contains_trimStart, contains_before,
      contains_nth, columns_plain, Hst. }
  assert (F : CentralDashboard.fitOf (columnsOf row)
              = SourcingEngine.fitOf (columnsOf row)).
  { unfold CentralDashboard.fitOf, SourcingEngine.fitOf.
    apply strip_tags_plain, contains_lt_lower, contains_nth, columns_plain, Hlt. }
  rewrite N, F. reflexivity.
Qed.

(** X22.  On a scorecard without any [<] and any [*] the two copies of the
    scorer return the same result: they differ only through the tags and
    the bold markers that the dashboard copy removes. *)
Theorem copies_agree_on_plain_text (scorecard : string) (buyBox : BuyBoxCriteria) :
  plainText scorecard ->
  SourcingEngine.calculateOverallFitScore scorecard buyBox
  = CentralDashboard.calculateOverallFitScore scorecard buyBox.
Proof.
  intros [Hlt Hst].
  unfold SourcingEngine.calculateOverallFitScore,
    CentralDashboard.calculateOverallFitScore. cbv zeta.
  destruct (String.eqb scorecard ""); [reflexivity|].
  destruct (Qeq_bool (totalPossibleScore buyBox) 0); [reflexivity|].
  do 3 f_equal.
  assert (P : Forall plainText (rowsOf scorecard)).
  { unfold rowsOf.
    assert (A : Forall plainText (Js.split newline scorecard)).
    { apply Forall_forall. intros x Hx. split.
      - pose proof (contains_split "<" newline scorecard Hlt) as H.
        rewrite Forall_forall in H. apply H, Hx.
      - pose proof (contains_split "*" newline scorecard Hst) as H.
        rewrite Forall_forall in H. apply H, Hx. }
    apply Forall_forall. intros x Hx. rewrite Forall_forall in A.
    apply A. rewrite <- (firstn_skipn 2). apply in_or_app. right. exact Hx. }
  generalize 0 at 1 2.
  induction P as [|row rows Hrow _ IH]; intro acc; simpl; [reflexivity|].
  rewrite (scoreRow_agree buyBox acc row Hrow). apply IH.
Qed.

(** X22 on the sample scorecard with the Fit cells "Yes" and "?". *)
Lemma copies_agree_on_plain_text_witness :
  SourcingEngine.calculateOverallFitScore (scorecardWith "Yes" "?") (buyBoxWith 2 3)
  = CentralDashboard.calculateOverallFitScore (scorecardWith "Yes" "?") (buyBoxWith 2 3).
Proof.
  apply copies_agree_on_plain_text. split; reflexivity.
Defined.

End FitRows.

(* ------------------------------------------------------------------ *)
(** ** The undo history of the buy box *)

Section HistoryProps.
Import History.
Context {T : Type}.
Variable stringify : T -> string.

Lemma past_snoc (h : History T) :
  canUndo h = true -> exists l x, past h = (l ++ [x])%list.
Proof.
  unfold canUndo. destruct (past h) as [|a l] using rev_ind.
  - discriminate.
  - intros _. exists l, a. reflexivity.
Qed.

Lemma undo_snoc (l : list T) (x p : T) (f : list T) :
  undo {| past := l ++ [x]; present := p; future := f |}
  = {| past := l; present := x; future := p :: f |}.
Proof.
  unfold undo, canUndo. cbn [past present future].
  rewrite length_app. cbn [List.length].
  replace (0 <? List.length l + 1)%nat with true
    by (symmetry; apply Nat.ltb_lt; lia).
  cbn [negb].
  replace (List.length l + 1 - 1)%nat with (List.length l) by lia.
  rewrite nth_error_app2 by lia. rewrite Nat.sub_diag. cbn [nth_error].
  rewrite firstn_app, Nat.sub_diag, firstn_all. cbn [firstn].
  rewrite app_nil_r. reflexivity.
Qed.

Lemma redo_cons (l : list T) (x p : T) (f : list T) :
  redo {| past := l; present := p; future := x :: f |}
  = {| past := l ++ [p]; present := x; future := f |}.
Proof. reflexivity. Qed.

Lemma undo_nothing (h : History T) : canUndo h = false -> undo h = h.
Proof. unfold undo. intros ->. reflexivity. Qed.

Lemma redo_nothing (h : History T) : canRedo h = false -> redo h = h.
Proof. unfold redo. intros ->. reflexivity. Qed.

(** X23.  Undo and redo neither lose nor reorder a state: the sequence of
    the past states, the present one and the future ones is the same
    after as before; only the position of the present state moves, one
    step back with undo where there is a past and one step on with redo
    where there is a future. *)
Theorem undo_redo_keep_timeline (h : History T) :
  timeline (undo h) = timeline h
  /\ timeline (redo h) = timeline h
  /\ List.length (past (undo h)) = pred (List.length (past h))
  /\ List.length (future (redo h)) = pred (List.length (future h)).
Proof.
  assert (U : timeline (undo h) = timeline h
              /\ List.length (past (undo h)) = pred (List.length (past h))).
  { destruct (canUndo h) eqn:E.
    - destruct (past_snoc h E) as (l & x & Hp).
      destruct h as [pa pr fu]. cbn [past] in Hp. subst pa.
      rewrite undo_snoc. unfold timeline. cbn [past present future].
      rewrite <- app_assoc, length_app. cbn [List.length app].
      split; [reflexivity | lia].
    - rewrite (undo_nothing h E). split; [reflexivity|].
      unfold canUndo in E. apply Nat.ltb_ge in E.
      destruct (past h); [reflexivity | simpl in E; lia]. }
  assert (R : timeline (redo h) = timeline h
              /\ List.length (future (redo h)) = pred (List.length (future h))).
  { destruct h as [pa pr [|x fu]].
    - split; reflexivity.
    - rewrite redo_cons. unfold timeline. cbn [past present future].
      rewrite <- app_assoc. split; reflexivity. }
  tauto.
Qed.

(** X24.  Redo takes back an undo and undo takes back a redo: where there
    is a past, undo followed by redo gives the history back, and where
    there is none undo changes nothing; the same for redo and the future. *)
Theorem undo_redo_round_trip (h : History T) :
  (if canUndo h then redo (undo h) = h else undo h = h)
  /\ (if canRedo h then undo (redo h) = h else redo h = h).
Proof.
  split.
  - destruct (canUndo h) eqn:E.
    + destruct (past_snoc h E) as (l & x & Hp).
      destruct h as [pa pr fu]. cbn [past] in Hp. subst pa.
      rewrite undo_snoc. apply redo_cons.
    + apply undo_nothing, E.
  - destruct (canRedo h) eqn:E.
    + destruct h as [pa pr [|x fu]]; [discriminate|].
      rewrite redo_cons. apply undo_snoc.
    + apply redo_nothing, E.
Qed.

(** X25.  Setting a state whose JSON text differs from that of the present
    one can be undone, and drops the states that could be redone: undo
    then shows the former present state with the former past, the new
    state is the only one to redo, and redo right after the set changes
    nothing. *)
Theorem set_then_undo (newState : T) (h : History T) :
  stringify newState <> stringify (present h) ->
  undo (set stringify (Value newState) h)
  = {| past := past h; present := present h; future := [newState] |}
  /\ redo (set stringify (Value newState) h)
     = set stringify (Value newState) h.
Proof.
  intro Hne. unfold set.
  destruct (String.eqb_spec (stringify newState) (stringify (present h)))
    as [E|_]; [contradiction|].
  split; [apply undo_snoc | reflexivity].
Qed.

End HistoryProps.

(** X25 on a history of integers compared by their decimal text. *)
Lemma set_then_undo_witness :
  History.undo
    (History.set HubHandlers.toString (History.Value 7%Z)
       {| History.past := [1%Z]; History.present := 2%Z;
          History.future := [3%Z] |})
  = {| History.past := [1%Z]; History.present := 2%Z;
       History.future := [7%Z] |}.
Proof.
  assert (H : HubHandlers.toString 7
              <> HubHandlers.toString
                   (History.present
                      {| History.past := [1%Z]; History.present := 2%Z;
                         History.future := [3%Z] |}))
    by (vm_compute; discriminate).
  exact (proj1 (set_then_undo HubHandlers.toString 7%Z _ H)).
Defined.

(* ------------------------------------------------------------------ *)
(** ** The saved profiles *)

Section ProfileProps.
Import App FitScore Profiles.

Lemma sameName_lower (a b : string) :
  sameName a b = true <-> Js.toLowerCase a = Js.toLowerCase b.
Proof. unfold sameName. apply String.eqb_eq. Qed.

Lemma sameName_not (a b : string) :
  sameName a b = false <-> Js.toLowerCase a <> Js.toLowerCase b.
Proof. unfold sameName. apply String.eqb_neq. Qed.

(** Overwriting keeps the lower-case names. *)
Lemma overwrite_lowerNames (n : string) (c : BuyBoxCriteria)
    (l : list SavedProfile) :
  map lowerName
    (map (fun p => if sameName (name p) n
                   then {| name := n; criteria := c |} else p) l)
  = map lowerName l.
Proof.
  rewrite map_map. apply map_ext. intro p.
  destruct (sameName (name p) n) eqn:E; [|reflexivity].
  apply sameName_lower in E. unfold lowerName. cbn [name]. symmetry. exact E.
Qed.

Lemma NoDup_snoc {A : Type} (l : list A) (x : A) :
  NoDup l -> ~ In x l -> NoDup (l ++ [x]).
Proof.
  intros Hl Hx. apply NoDup_app; [exact Hl | repeat constructor; intros [] |].
  intros a Ha [<-|[]]. exact (Hx Ha).
Qed.

Lemma rename_absent (o n : string) (l : list SavedProfile) :
  (forall p, In p l -> name p <> o) ->
  map (fun p => if String.eqb (name p) o
                then {| name := n; criteria := criteria p |} else p) l = l.
Proof.
  intro H. rewrite <- (map_id l) at 2. apply map_ext_in. intros p Hp.
  destruct (String.eqb_spec (name p) o) as [E|_]; [|reflexivity].
  destruct (H p Hp E).
Qed.

Lemma rename_lowerNames (o n x : string) (l : list SavedProfile) :
  In x (map lowerName
          (map (fun p => if String.eqb (name p) o
                         then {| name := n; criteria := criteria p |}
                         else p) l)) ->
  x = Js.toLowerCase n \/ In x (map lowerName l).
Proof.
  rewrite map_map, !in_map_iff. intros (p & Hx & Hp).
  destruct (String.eqb (name p) o).
  - left. symmetry. exact Hx.
  - right. exists p. split; assumption.
Qed.

Lemma rename_NoDup (o n : string) (l : list SavedProfile) :
  NoDup (map lowerName l) ->
  ~ In (Js.toLowerCase n) (map lowerName l) ->
  NoDup (map lowerName
           (map (fun p => if String.eqb (name p) o
                          then {| name := n; criteria := criteria p |}
                          else p) l)).
Proof.
  induction l as [|p l IH]; intros Hd Hn; [constructor|].
  cbn [map] in *. inversion Hd as [|? ? Hp Hl]; subst.
  destruct (String.eqb_spec (name p) o) as [E|E].
  - rewrite rename_absent.
    + constructor; [|exact Hl]. intro H. apply Hn. right. exact H.
    + intros q Hq Eq. apply Hp. apply in_map_iff. exists q.
      split; [|exact Hq]. unfold lowerName. rewrite Eq, E. reflexivity.
  - constructor.
    + intro H. apply rename_lowerNames in H. destruct H as [H|H].
      * apply Hn. left. exact H.
      * exact (Hp H).
    + apply IH; [exact Hl|]. intro H. apply Hn. right. exact H.
Qed.

Lemma filter_NoDup_map {A B : Type} (k : A -> B) (f : A -> bool)
    (l : list A) :
  NoDup (map k l) -> NoDup (map k (List.filter f l)).
Proof.
  induction l as [|a l IH]; intro H; [constructor|].
  cbn [map List.filter] in *. inversion H as [|? ? Ha Hl]; subst.
  destruct (f a); [|exact (IH Hl)].
  cbn [map]. constructor; [|exact (IH Hl)].
  intro Hin. apply Ha. apply in_map_iff in Hin. destruct Hin as (b & E & Hb).
  apply filter_In in Hb. apply in_map_iff. exists b. tauto.
Qed.

Lemma existsb_false_lower (n : string) (l : list SavedProfile) :
  existsb (fun p => sameName (name p) n) l = false ->
  ~ In (Js.toLowerCase n) (map lowerName l).
Proof.
  intros H Hin. apply in_map_iff in Hin. destruct Hin as (p & E & Hp).
  assert (X : existsb (fun p => sameName (name p) n) l = true).
  { apply existsb_exists. exists p. split; [exact Hp|].
    apply sameName_lower. exact E. }
  congruence.
Qed.

Lemma handle_namesDistinct (st : ProfileState) (a : ProfileAction) :
  namesDistinct st -> namesDistinct (handle st a).
Proof.
  unfold namesDistinct. intro H.
  destruct a as [|confirm n|n|o n|confirm n]; cbn [handle].
  - exact H.
  - unfold handleSaveProfile.
    destruct (find _ (savedProfiles st)) eqn:F.
    + destruct confirm; cbn [negb]; [|exact H].
      cbn [savedProfiles]. rewrite overwrite_lowerNames. exact H.
    + cbn [savedProfiles]. rewrite map_app. cbn [map].
      apply NoDup_snoc; [exact H|].
      intro Hin. apply in_map_iff in Hin. destruct Hin as (p & E & Hp).
      pose proof (find_none _ _ F p Hp) as N. cbv beta in N.
      apply sameName_not in N. apply N. exact E.
  - unfold handleLoadProfile.
    destruct (find _ (savedProfiles st)); exact H.
  - unfold handleRenameProfile.
    destruct (_ || _ || _); [exact H|].
    destruct (existsb _ (savedProfiles st)) eqn:X; [exact H|].
    cbn [savedProfiles].
    apply rename_NoDup; [exact H | apply existsb_false_lower, X].
  - unfold handleDeleteProfile.
    destruct (String.eqb n "Default"); [exact H|].
    destruct confirm; [|exact H].
    destruct (isCurrent st n);
      [destruct (find _ (savedProfiles st))|];
      cbn [savedProfiles]; apply filter_NoDup_map, H.
Qed.

Lemma isCurrent_true (st : ProfileState) (n : string) :
  isCurrent st n = true <-> currentProfileName st = Some n.
Proof.
  unfold isCurrent. destruct (currentProfileName st) as [c|].
  - rewrite String.eqb_eq. split; [intros ->; reflexivity | congruence].
  - split; discriminate.
Qed.

Lemma handle_currentIsSaved (st : ProfileState) (a : ProfileAction) :
  currentIsSaved st -> currentIsSaved (handle st a).
Proof.
  unfold currentIsSaved. intro H.
  destruct a as [|confirm n|n|o n|confirm n]; cbn [handle].
  - exact I.
  - unfold handleSaveProfile.
    destruct (find _ (savedProfiles st)) as [q|] eqn:F.
    + destruct confirm; cbn [negb]; [|exact H].
      cbn [currentProfileName savedProfiles].
      apply find_some in F. destruct F as [Hq Eq]. cbv beta in Eq.
      exists {| name := n; criteria := buyBox st |}. split; [|reflexivity].
      apply in_map_iff. exists q. rewrite Eq. split; [reflexivity|exact Hq].
    + cbn [currentProfileName savedProfiles].
      exists {| name := n; criteria := buyBox st |}. split; [|reflexivity].
      apply in_or_app. right. left. reflexivity.
  - unfold handleLoadProfile.
    destruct (find _ (savedProfiles st)) as [q|] eqn:F; [|exact H].
    cbn [currentProfileName savedProfiles].
    apply find_some in F. destruct F as [Hq Eq].
    apply String.eqb_eq in Eq. exists q. split; assumption.
  - unfold handleRenameProfile.
    destruct (_ || _ || _); [exact H|].
    destruct (existsb _ (savedProfiles st)); [exact H|].
    cbn [currentProfileName savedProfiles].
    destruct (isCurrent st o) eqn:C.
    + apply isCurrent_true in C. rewrite C in H.
      destruct H as (p & Hp & E).
      exists {| name := Js.trim n; criteria := criteria p |}.
      split; [|reflexivity]. apply in_map_iff. exists p.
      rewrite E, String.eqb_refl. split; [reflexivity|exact Hp].
    + destruct (currentProfileName st) as [c|] eqn:Ec; [|exact I].
      destruct H as (p & Hp & E). exists p. split; [|exact E].
      apply in_map_iff. exists p. split; [|exact Hp].
      unfold isCurrent in C. rewrite Ec in C.
      rewrite E, C. reflexivity.
  - unfold handleDeleteProfile.
    destruct (String.eqb_spec n "Default") as [|Nd]; [exact H|].
    destruct confirm; [|exact H].
    destruct (isCurrent st n) eqn:C.
    + destruct (find _ (savedProfiles st)) as [d|] eqn:F;
        cbn [currentProfileName savedProfiles]; [|exact I].
      apply find_some in F. destruct F as [Hd Ed].
      apply String.eqb_eq in Ed. exists d. split; [|exact Ed].
      apply filter_In. split; [exact Hd|].
      rewrite Ed. apply negb_true_iff, String.eqb_neq. congruence.
    + cbn [currentProfileName savedProfiles].
      destruct (currentProfileName st) as [c|] eqn:Ec; [|exact I].
      destruct H as (p & Hp & E). exists p. split; [|exact E].
      apply filter_In. split; [exact Hp|].
      unfold isCurrent in C. rewrite Ec in C.
      rewrite E, C. reflexivity.
Qed.

(** X26.  Whatever the user does on the profiles (new, save or overwrite,
    load, rename, delete, with any answers to the confirmations), starting
    from profiles whose names differ up to letter case and from a current
    name that is saved: the names still differ up to letter case, and the
    name shown as current, if any, is still that of a saved profile. *)
Theorem profiles_stay_consistent (st : ProfileState)
    (actions : list ProfileAction) :
  namesDistinct st -> currentIsSaved st ->
  namesDistinct (fold_left handle actions st)
  /\ currentIsSaved (fold_left handle actions st).
Proof.
  revert st. induction actions as [|a actions IH]; intros st Hn Hc.
  - split; assumption.
  - cbn [fold_left]. apply IH.
    + apply handle_namesDistinct, Hn.
    + apply handle_currentIsSaved, Hc.
Qed.

(** X26 from the first state: save as "Growth", rename it to the name of
    the default profile in capitals (refused), delete it. *)
Lemma profiles_stay_consistent_witness :
  namesDistinct
    (fold_left handle
       [SaveProfile true "Growth"; RenameProfile "Growth" " DEFAULT ";
        DeleteProfile true "Growth"] firstState)
  /\ currentIsSaved
       (fold_left handle
          [SaveProfile true "Growth"; RenameProfile "Growth" " DEFAULT ";
           DeleteProfile true "Growth"] firstState).
Proof.
  apply profiles_stay_consistent.
  - unfold namesDistinct. cbn. constructor; [intros []|constructor].
  - cbn. eexists. split; [left; reflexivity|reflexivity].
Defined.

End ProfileProps.

(* ------------------------------------------------------------------ *)
(** ** The filters of the sourcing results *)

Section FilterProps.
Import SourcingFilters.

Lemma filter_all {A : Type} (f : A -> bool) (l : list A) :
  Forall (fun x => f x = true) l -> List.filter f l = l.
Proof.
  induction 1 as [|x l Hx _ IH]; [reflexivity|].
  cbn [List.filter]. rewrite Hx, IH. reflexivity.
Qed.

(** X27.  With the controls untouched (minimum score 0, no industry text,
    no SDE bounds) nothing is hidden, as long as no score and no SDE is
    negative, which is the case of the results the engine builds. *)
Theorem untouched_filters_hide_nothing (results : list SourcingResult) :
  scoresNonneg results -> sdeNonneg results ->
  applyFilters 0 "" "" "" results = results.
Proof.
  unfold scoresNonneg, sdeNonneg, applyFilters. intros Hs Hd.
  apply filter_all. rewrite Forall_forall in *. intros r Hr.
  specialize (Hs r Hr). specialize (Hd r Hr). unfold keeps.
  destruct (hasError r); [reflexivity|].
  assert (S : scoreMatch 0 r = true).
  { unfold scoreMatch, Js.or_elseZ. apply Z.leb_le.
    destruct (overallFitScore r) as [s|]; [|lia].
    destruct (s =? 0)%Z; lia. }
  assert (D : sdeMatch "" "" r = true).
  { unfold sdeMatch. destruct (sde r) as [x|]; [|reflexivity].
    apply orb_true_iff. right. unfold geMin, leMax, minSde, maxSde.
    cbn [nonEmpty String.eqb negb andb]. rewrite andb_true_r.
    apply Qle_bool_iff. exact Hd. }
  rewrite S, D. reflexivity.
Qed.

(** X27 on a listing with score 80 and SDE 500000 and a failed one. *)
Lemma untouched_filters_hide_nothing_witness :
  applyFilters 0 "" "" ""
    [{| overallFitScore := Some 80%Z; sde := Some 500000;
        industry := Some "Landscaping"; error := None |};
     {| overallFitScore := None; sde := None; industry := None;
        error := Some "Failed to analyze this listing." |}]
  = [{| overallFitScore := Some 80%Z; sde := Some 500000;
        industry := Some "Landscaping"; error := None |};
     {| overallFitScore := None; sde := None; industry := None;
        error := Some "Failed to analyze this listing." |}].
Proof.
  apply untouched_filters_hide_nothing.
  - repeat constructor. cbn. lia.
  - repeat constructor. cbn. discriminate.
Defined.

(** X28.  An SDE bound that [parseInt] cannot read, such as one that
    starts with a currency sign, does not count as no bound: it hides
    every listing that has no error and an SDE other than 0, whatever
    that SDE is. *)
Theorem unreadable_sde_bound_hides_listings (filterScoreMin : Z)
    (filterIndustry filterSdeMin filterSdeMax : string)
    (results : list SourcingResult) :
  minSde filterSdeMin = None \/ maxSde filterSdeMax = Parsed None ->
  Forall (fun r => hasSde r = false)
    (applyFilters filterScoreMin filterIndustry filterSdeMin filterSdeMax
       results).
Proof.
  intro H. apply Forall_forall. intros r Hr.
  unfold applyFilters in Hr. apply filter_In in Hr. destruct Hr as [_ K].
  unfold keeps in K. unfold hasSde.
  destruct (hasError r); [reflexivity|]. cbn [negb andb].
  destruct (sde r) as [x|] eqn:Ex; [|reflexivity].
  destruct (Js.truthy x) eqn:Tx; [|reflexivity].
  apply andb_true_iff in K. destruct K as [_ K].
  unfold sdeMatch in K. rewrite Ex, Tx in K. cbn [negb orb] in K.
  apply andb_true_iff in K. destruct K as [G L].
  unfold geMin, leMax in G, L. destruct H as [H|H].
  - rewrite H in G. discriminate.
  - rewrite H in L. discriminate.
Qed.

(** X28 for the minimum "$400,000": the listing with SDE 500000 is hidden. *)
Lemma unreadable_sde_bound_hides_listings_witness :
  Forall (fun r => hasSde r = false)
    (applyFilters 0 "" "$400,000" ""
       [{| overallFitScore := Some 80%Z; sde := Some 500000;
           industry := Some "Landscaping"; error := None |}]).
Proof.
  apply unreadable_sde_bound_hides_listings. left. reflexivity.
Defined.

End FilterProps.
